(** * BaseballHistory: the season dashboard's data pipeline

    A shallow embedding of [baseballcode24.py]: the fetcher [fetch_data],
    the deriver [clean_data] and the top-level script that filters the
    season table by plate appearances and by team.

    The script is Python over pandas.  Tables are mutable objects that the
    script reaches through references, so the embedding has three layers:

    - [Py]: Python values as table cells, exceptions, and the operators the
      script applies to cells ([+], [>=], [==], [sorted]);
    - [Pandas]: a DataFrame as a value, with the pandas operations the
      script calls, each as a function on values;
    - [Dashboard]: a store of DataFrame objects, a small state and exception
      monad over it, and the script itself, statement by statement.

    [Value] reads each piece of the script as a function on table values,
    [Spec] holds the order of stages that the specification describes, and
    [Sample] the tables the examples run on.  The lemmas and theorems
    follow the definitions. *)

From Stdlib Require Import ZArith String.
From Stdlib Require Import Floats.PrimFloat Floats.SpecFloat Floats.FloatOps.
From Stdlib Require Import Structures.OrderedTypeEx.
From stdpp Require Import base option list strings gmap pretty sorting.

#[local] Open Scope string_scope.
#[local] Open Scope Z_scope.
#[local] Set Warnings "-inexact-float,-clear-no-such-hyp".

(* ================================================================== *)
(** ** Python values and exceptions *)
(* ================================================================== *)

Module Py.

(** The exceptions the script can meet.  [KeyError] is what pandas raises
    for [df["c"]] when there is no column [c]; [TypeError] is what Python
    raises for an operator applied to operands it does not support;
    [ValueError] is what pandas raises for values whose length is not the
    table's.
    [Exception] stands for any other subclass of [Exception] (what the data
    provider raises on a network, parsing or server failure), and
    [BaseException] for the ones outside that class ([KeyboardInterrupt],
    [SystemExit]), which [except Exception] lets through. *)
Inductive exn : Type :=
| KeyError (key : string)
| TypeError (msg : string)
| ValueError (msg : string)
| Exception (msg : string)
| BaseException (msg : string).

(** [isinstance(e, Exception)]. *)
Definition is_Exception (e : exn) : bool :=
  match e with
  | BaseException _ => false
  | _ => true
  end.

(** [str(e)]: a [KeyError] shows the repr of its key. *)
Definition str_exn (e : exn) : string :=
  match e with
  | KeyError k => "'" +:+ k +:+ "'"
  | TypeError m | ValueError m | Exception m | BaseException m => m
  end.

(** The outcome of an expression: a value, or a raised exception. *)
Inductive result (A : Type) : Type :=
| Ok (a : A)
| Raise (e : exn).
#[global] Arguments Ok {A} a.
#[global] Arguments Raise {A} e.

#[global] Instance result_ret : MRet result := @Ok.
#[global] Instance result_bind : MBind result := λ A B f r,
  match r with
  | Ok a => f a
  | Raise e => Raise e
  end.
#[global] Instance result_fmap : FMap result := λ A B f r,
  match r with
  | Ok a => Ok (f a)
  | Raise e => Raise e
  end.

(** [[f(x) for x in l]], stopping at the first exception. *)
Fixpoint mapR {A B : Type} (f : A → result B) (l : list A) : result (list B) :=
  match l with
  | [] => Ok []
  | x :: l' => y ← f x; ys ← mapR f l'; Ok (y :: ys)
  end.

(** A table cell: an integer ([PA], [HR]), a float ([OBP], [SLG], [WAR],
    [AVG]; NaN marks a missing number), a string ([Name], [Team]; UTF-8
    bytes, whose byte order is Python's code point order), or [None]. *)
Inductive cell : Type :=
| VInt (n : Z)
| VFloat (x : float)
| VStr (s : string)
| VNone.

(** [pd.isna]: [None] and NaN are the missing values. *)
Definition isna (c : cell) : bool :=
  match c with
  | VNone => true
  | VFloat x => PrimFloat.is_nan x
  | _ => false
  end.

(** The float nearest to an integer (round to nearest, ties to even). *)
Definition float_of_Z (n : Z) : float :=
  SF2Prim (binary_normalize prec emax n 0 false).

(** Two's complement wrap-around of an [int64] column entry. *)
Definition wrap64 (n : Z) : Z :=
  (n + 2 ^ 63) mod 2 ^ 64 - 2 ^ 63.

(** The exact order between a float and an integer; [None] for NaN. *)
Definition float_compare_Z (x : float) (n : Z) : option comparison :=
  match Prim2SF x with
  | S754_nan => None
  | S754_zero _ => Some (0 ?= n)
  | S754_infinity s => Some (if s then Lt else Gt)
  | S754_finite s m e =>
      let v := if s then Z.neg m else Z.pos m in
      Some (if 0 <=? e then v * 2 ^ e ?= n else v ?= n * 2 ^ (- e))
  end.

(** The order between two numbers or two strings, as Python's rich
    comparisons see it: [Some None] when the operands are unordered (a NaN
    is involved), [None] when Python has no order between the two types. *)
Definition py_compare (a b : cell) : option (option comparison) :=
  match a, b with
  | VInt m, VInt n => Some (Some (m ?= n))
  | VFloat x, VFloat y =>
      Some (match PrimFloat.compare x y with
            | FEq => Some Eq | FLt => Some Lt | FGt => Some Gt
            | FNotComparable => None
            end)
  | VFloat x, VInt n => Some (float_compare_Z x n)
  | VInt n, VFloat x => Some (CompOpp <$> float_compare_Z x n)
  | VStr s, VStr t => Some (Some (String.compare s t))
  | _, _ => None
  end.

(** [a == b].  Values of unrelated types are unequal; nothing raises. *)
Definition py_eq (a b : cell) : bool :=
  match a, b with
  | VNone, VNone => true
  | _, _ =>
      match py_compare a b with
      | Some (Some Eq) => true
      | _ => false
      end
  end.

(** [a < b]: raises [TypeError] between a string and a number, or when
    [None] is involved. *)
Definition py_lt (a b : cell) : result bool :=
  match py_compare a b with
  | Some (Some Lt) => Ok true
  | Some _ => Ok false
  | None => Raise (TypeError "'<' not supported between these types")
  end.

(** [a >= b], same typing as [py_lt]. *)
Definition py_ge (a b : cell) : result bool :=
  match py_compare a b with
  | Some (Some (Eq | Gt)) => Ok true
  | Some _ => Ok false
  | None => Raise (TypeError "'>=' not supported between these types")
  end.

(** [a + b]: integer addition in an [int64] column, float addition (an
    integer operand is converted first), string concatenation; [TypeError]
    otherwise. *)
Definition py_add (a b : cell) : result cell :=
  match a, b with
  | VInt m, VInt n => Ok (VInt (wrap64 (m + n)))
  | VFloat x, VFloat y => Ok (VFloat (x + y))
  | VInt m, VFloat y => Ok (VFloat (float_of_Z m + y))
  | VFloat x, VInt n => Ok (VFloat (x + float_of_Z n))
  | VStr s, VStr t => Ok (VStr (s +:+ t))
  | _, _ => Raise (TypeError "unsupported operand type(s) for +")
  end.

(** [sorted(l)]: a stable sort by [<].  Every element after the first is
    compared with an element already placed, so a list that mixes strings
    and numbers raises [TypeError], as Python's sort does. *)
Fixpoint insert_sorted (x : cell) (l : list cell) : result (list cell) :=
  match l with
  | [] => Ok [x]
  | y :: l' =>
      b ← py_lt y x;
      if b : bool then l'' ← insert_sorted x l'; Ok (y :: l'') else Ok (x :: y :: l')
  end.

Fixpoint sorted (l : list cell) : result (list cell) :=
  match l with
  | [] => Ok []
  | x :: l' => s ← sorted l'; insert_sorted x s
  end.

End Py.
Export Py.

(* ================================================================== *)
(** ** pandas: tables as values *)
(* ================================================================== *)

Module Pandas.

(** A row: its index label (the row's identity, which filtering and
    projection keep) and one cell per column, in column order. *)
Record Row : Type := { label : Z; cells : list cell }.

(** A DataFrame: the column names in order, and the rows in order. *)
Record DataFrame : Type := { columns : list string; rows : list Row }.

(** A column read from a table, or a mask computed from one: one entry per
    row of that table, in row order (it keeps the table's index, so pandas
    aligns it with the table position by position). *)
Abbreviation Series := (list cell).

(** [pd.DataFrame()]: no columns, no rows. *)
Definition DataFrame_new : DataFrame := {| columns := []; rows := [] |}.

(** [df.empty]: true when either axis has length 0. *)
Definition empty (df : DataFrame) : bool :=
  match columns df, rows df with
  | [], _ | _, [] => true
  | _, _ => false
  end.

(** The position of column [c], if any: the first one, should a name
    occur twice.  Under a repeated name pandas answers with every column
    of that name, so the statements that depend on it ask for distinct
    column names. *)
Definition column_index (c : string) (cols : list string) : option nat :=
  fst <$> list_find (λ c', c' = c) cols.

Definition cell_at (i : nat) (r : Row) : cell := default VNone (cells r !! i).

(** The cell of row [r] under column [c] of table [df]. *)
Definition row_get (df : DataFrame) (c : string) (r : Row) : option cell :=
  i ← column_index c (columns df); Some (cell_at i r).

(** [df["c"]] as an expression: the column, or [KeyError]. *)
Definition getitem (df : DataFrame) (c : string) : result Series :=
  match column_index c (columns df) with
  | Some i => Ok (cell_at i <$> rows df)
  | None => Raise (KeyError c)
  end.

Definition set_cell (i : nat) (v : cell) (r : Row) : Row :=
  {| label := label r; cells := <[i := v]> (cells r) |}.

Definition add_cell (v : cell) (r : Row) : Row :=
  {| label := label r; cells := cells r ++ [v] |}.

(** The table after [df["c"] = s]: an existing column [c] is overwritten
    where it stands, a new one is appended as the last column. *)
Definition setitem (df : DataFrame) (c : string) (s : Series) : result DataFrame :=
  if bool_decide (length s = length (rows df)) then
    match column_index c (columns df) with
    | Some i =>
        Ok {| columns := columns df; rows := zip_with (λ r v, set_cell i v r) (rows df) s |}
    | None =>
        Ok {| columns := columns df ++ [c];
              rows := zip_with (λ r v, add_cell v r) (rows df) s |}
    end
  else Raise (ValueError "Length of values does not match length of index").

(** [df[cols]] for a list of names: a new table with these columns in the
    order of the list; [KeyError] when a name is not a column. *)
Definition getitem_list (df : DataFrame) (cols : list string) : result DataFrame :=
  idxs ← mapR (λ c, match column_index c (columns df) with
                    | Some i => Ok i
                    | None => Raise (KeyError c)
                    end) cols;
  Ok {| columns := cols;
        rows := (λ r, {| label := label r; cells := (λ i, cell_at i r) <$> idxs |})
                  <$> rows df |}.

(** [df[mask]] for a boolean mask: a new table with the rows whose mask
    entry is true, in their order. *)
Definition getitem_mask (df : DataFrame) (mask : list bool) : result DataFrame :=
  if bool_decide (length mask = length (rows df)) then
    Ok {| columns := columns df;
          rows := fst <$> filter (λ p, snd p = true) (zip (rows df) mask) |}
  else Raise (ValueError "Item wrong length").

(** [s1 + s2], entry by entry. *)
Definition series_add (s1 s2 : Series) : result Series :=
  mapR (λ p, py_add (fst p) (snd p)) (zip s1 s2).

(** [s >= n] for an integer [n]: a missing entry compares false. *)
Definition series_ge (s : Series) (n : Z) : result (list bool) :=
  mapR (λ c, if isna c then Ok false else py_ge c (VInt n)) s.

(** [s == v]: a missing entry compares false. *)
Definition series_eq (s : Series) (v : cell) : list bool :=
  (λ c, negb (isna c) && negb (isna v) && py_eq c v) <$> s.

(** [s.dropna()]. *)
Definition dropna (s : Series) : Series := filter (λ c, isna c = false) s.

(** [s.unique()]: the distinct values, in order of first appearance. *)
Fixpoint unique (s : Series) : Series :=
  match s with
  | [] => []
  | x :: s' => x :: filter (λ y, py_eq x y = false) (unique s')
  end.

(** Every row has one cell per column. *)
Definition wf (df : DataFrame) : Prop :=
  Forall (λ r, length (cells r) = length (columns df)) (rows df).

End Pandas.
Export Pandas.

(* ================================================================== *)
(** ** The script: a store of tables, and the code over it *)
(* ================================================================== *)

Module Dashboard.

(** A reference to a DataFrame object. *)
Definition loc : Type := nat.

(** What the script puts on the page (the calls it makes on [st]). *)
Inductive ui_event : Type :=
| st_error (msg : string)
| st_header (msg : string)
| st_warning (msg : string).

(** The state of one run: the DataFrame objects alive, by reference, and
    the page so far. *)
Record state : Type := { heap : gmap loc DataFrame; page : list ui_event }.

Definition init : state := {| heap := ∅; page := [] |}.

(** A statement or expression of the script: it reads and updates the
    state, and yields a value or raises. *)
Definition M (A : Type) : Type := state → result A * state.

#[global] Instance M_ret : MRet M := λ A a σ, (Ok a, σ).
#[global] Instance M_bind : MBind M := λ A B f m σ,
  match m σ with
  | (Ok a, σ') => f a σ'
  | (Raise e, σ') => (Raise e, σ')
  end.

(** An expression without effect. *)
Definition lift {A : Type} (r : result A) : M A := λ σ, (r, σ).

(** The reference the next new object gets: one that is not in use. *)
Definition next (σ : state) : loc := fresh (dom (heap σ)).

(** The state with a new object holding [df]. *)
Definition alloc (σ : state) (df : DataFrame) : state :=
  {| heap := <[next σ := df]> (heap σ); page := page σ |}.

(** The state with the object behind [l] overwritten by [df]. *)
Definition update (σ : state) (l : loc) (df : DataFrame) : state :=
  {| heap := <[l := df]> (heap σ); page := page σ |}.

(** The state with one more element on the page. *)
Definition say (σ : state) (e : ui_event) : state :=
  {| heap := heap σ; page := page σ ++ [e] |}.

(** A new object holding [df]. *)
Definition new (df : DataFrame) : M loc := λ σ, (Ok (next σ), alloc σ df).

(** The table behind a reference.  Python has no reference without an
    object; the model marks one with an exception that no handler of the
    script catches. *)
Definition load (l : loc) : M DataFrame := λ σ,
  match heap σ !! l with
  | Some df => (Ok df, σ)
  | None => (Raise (BaseException "dangling reference"), σ)
  end.

(** Overwrite the object behind [l]: every holder of [l] sees the change. *)
Definition store (l : loc) (df : DataFrame) : M unit := λ σ, (Ok (), update σ l df).

Definition emit (e : ui_event) : M unit := λ σ, (Ok (), say σ e).

(** [try: body / except Exception as e: handler(e)]. *)
Definition try_except {A : Type} (body : M A) (handler : exn → M A) : M A := λ σ,
  match body σ with
  | (Raise e, σ') => if is_Exception e then handler e σ' else (Raise e, σ')
  | ok => ok
  end.

(** The table a run hands over: the object behind the reference it ends
    with, in the state it ends in. *)
Definition table_of (out : result loc * state) : result DataFrame :=
  match out with
  | (Ok l, σ) => fst (load l σ)
  | (Raise e, _) => Raise e
  end.

(** *** pandas operations on objects *)

(** [df.empty] *)
Definition df_empty (df : loc) : M bool := t ← load df; mret (empty t).

(** [df.columns] *)
Definition df_columns (df : loc) : M (list string) := t ← load df; mret (columns t).

(** [df[c]] *)
Definition df_getitem (df : loc) (c : string) : M Series :=
  t ← load df; lift (getitem t c).

(** [df[c] = s]: the object itself changes. *)
Definition df_setitem (df : loc) (c : string) (s : Series) : M unit :=
  t ← load df; t' ← lift (setitem t c s); store df t'.

(** [df[cols]]: a new object. *)
Definition df_getitem_list (df : loc) (cols : list string) : M loc :=
  t ← load df; t' ← lift (getitem_list t cols); new t'.

(** [df[mask]]: a new object. *)
Definition df_getitem_mask (df : loc) (mask : list bool) : M loc :=
  t ← load df; t' ← lift (getitem_mask t mask); new t'.

(** *** [clean_data] (lines 19-26) *)

Definition cols : list string := ["Name"; "WAR"; "OPS"; "HR"; "AVG"; "Team"].

Definition clean_data (df : loc) : M loc :=
  e ← df_empty df;
  if negb e then
    obp ← df_getitem df "OBP";
    slg ← df_getitem df "SLG";
    ops ← lift (series_add obp slg);
    df_setitem df "OPS" ops;;
    dfcols ← df_columns df;
    let available_cols := filter (λ c, c ∈ dfcols) cols in
    df_getitem_list df available_cols
  else mret df.

(** *** The filters of the top-level script *)

(** Line 50: [df[df["PA"] >= min_pa]]. *)
Definition filterByPA (df : loc) (min_pa : Z) : M loc :=
  pa ← df_getitem df "PA";
  mask ← lift (series_ge pa min_pa);
  df_getitem_mask df mask.

(** Line 58: [["All"] + sorted(df["Team"].dropna().unique().tolist())]. *)
Definition team_options (df : loc) : M (list cell) :=
  team ← df_getitem df "Team";
  s ← lift (sorted (unique (dropna team)));
  mret (VStr "All" :: s).

(** Line 59: the option the user has picked in the select box; the first
    option until the user picks one. *)
Definition selectbox (options : list cell) (choice : nat) : cell :=
  default (default VNone (head options)) (options !! choice).

(** Lines 61-62: [if selected_team != "All": df = df[df["Team"] == selected_team]]. *)
Definition filterByTeam (df : loc) (selected_team : cell) : M loc :=
  if negb (py_eq selected_team (VStr "All")) then
    team ← df_getitem df "Team";
    df_getitem_mask df (series_eq team selected_team)
  else mret df.

(** Lines 49-51: the plate-appearance filter and the deriver, skipped for
    an empty table. *)
Definition derive_stage (df : loc) (min_pa : Z) : M loc :=
  e ← df_empty df;
  if negb e then
    df ← filterByPA df min_pa;
    clean_data df
  else mret df.

(** Lines 54-62 and 107-108: the team selector and the team filter,
    skipped with a warning for an empty table.  The value is the table
    handed to the presentation code of lines 64-105. *)
Definition team_stage (df : loc) (selected_year : Z) (choice : nat) : M loc :=
  e ← df_empty df;
  if negb e then
    emit (st_header (pretty selected_year +:+ " Season Leaders"));;
    teams ← team_options df;
    let selected_team := selectbox teams choice in
    filterByTeam df selected_team
  else
    emit (st_warning "No data available for the selected season.");;
    mret df.

Section Script.

(** The data provider, [pybaseball.batting_stats(year, qual)]: for each
    season it answers with a table or raises. *)
Variable batting_stats : Z → Z → result DataFrame.

(** [fetch_data] (lines 10-16).  The decorator [st.cache_data] memoises
    the function and hands each caller a copy of its own; what follows
    is the function it wraps. *)
Definition fetch_data (year : Z) : M loc :=
  try_except
    (t ← lift (batting_stats year 10); new t)
    (λ e,
      emit (st_error ("Error fetching data for " +:+ pretty year +:+ ": " +:+ str_exn e));;
      new DataFrame_new).

(** The top-level script, lines 48-62 with the warning of lines 107-108,
    for the widget values [selected_year], [min_pa] and the user's pick in
    the team box.  Its value is the table that the presentation code of
    lines 64-105 receives; that code (metrics, leaderboard, plots) is not
    modelled, so [main] says nothing of what happens from line 64 on. *)
Definition main (selected_year min_pa : Z) (choice : nat) : M loc :=
  df ← fetch_data selected_year;
  df ← derive_stage df min_pa;
  team_stage df selected_year choice.

End Script.

End Dashboard.
Export Dashboard.

(* ================================================================== *)
(** ** What the script computes, on table values *)
(* ================================================================== *)

(** Each piece of the script, read as a function from the table behind its
    argument to the table behind its result.  The run lemmas below relate
    the code to these functions. *)
Module Value.

(** Line 21: the table with [OPS = OBP + SLG]. *)
Definition with_OPS (t : DataFrame) : result DataFrame :=
  obp ← getitem t "OBP";
  slg ← getitem t "SLG";
  ops ← series_add obp slg;
  setitem t "OPS" ops.

(** Lines 23-25: the display columns the table has, in display order. *)
Definition projection (t : DataFrame) : result DataFrame :=
  getitem_list t (filter (λ c, c ∈ columns t) cols).

(** [clean_data]. *)
Definition clean (t : DataFrame) : result DataFrame :=
  if empty t then Ok t else t1 ← with_OPS t; projection t1.

(** Line 50. *)
Definition pa_filter (t : DataFrame) (min_pa : Z) : result DataFrame :=
  pa ← getitem t "PA";
  mask ← series_ge pa min_pa;
  getitem_mask t mask.

(** Line 58. *)
Definition options (t : DataFrame) : result (list cell) :=
  team ← getitem t "Team";
  s ← sorted (unique (dropna team));
  Ok (VStr "All" :: s).

(** Lines 61-62. *)
Definition team_filter (t : DataFrame) (selected_team : cell) : result DataFrame :=
  if negb (py_eq selected_team (VStr "All")) then
    team ← getitem t "Team";
    getitem_mask t (series_eq team selected_team)
  else Ok t.

(** Lines 12-16: the provider's table, or an empty one when it fails. *)
Definition fetched (batting_stats : Z → Z → result DataFrame) (year : Z) :
    result DataFrame :=
  match batting_stats year 10 with
  | Raise e => if is_Exception e then Ok DataFrame_new else Raise e
  | ok => ok
  end.

(** Lines 49-62 in the order the script runs them: the plate-appearance
    filter, then the deriver, then the team filter; the first two are
    skipped for an empty table, and so is the third. *)
Definition pipeline (t : DataFrame) (min_pa : Z) (choice : nat) : result DataFrame :=
  t1 ← (if empty t then Ok t else t' ← pa_filter t min_pa; clean t');
  if empty t1 then Ok t1
  else teams ← options t1; team_filter t1 (selectbox teams choice).

(** The plate appearances of a cell reach [n]: the test of line 50 on one
    entry of the [PA] column. *)
Definition at_least (n : Z) (c : cell) : bool :=
  match c with
  | VInt m => n <=? m
  | VFloat x =>
      match float_compare_Z x n with
      | Some (Eq | Gt) => true
      | _ => false
      end
  | _ => false
  end.

(** Row [r] of table [t] passes the test of line 50. *)
Definition PA_at_least (t : DataFrame) (n : Z) (r : Row) : bool :=
  match row_get t "PA" r with
  | Some c => at_least n c
  | None => false
  end.

(** The entry is the string [team]: the test of line 62 on one entry of
    the [Team] column. *)
Definition is_team (team : string) (c : cell) : bool :=
  match c with
  | VStr s => String.eqb s team
  | _ => false
  end.

(** Row [r] of table [t] passes the test of line 62. *)
Definition on_team (t : DataFrame) (team : string) (r : Row) : bool :=
  match row_get t "Team" r with
  | Some c => is_team team c
  | None => false
  end.

(** A column entry the script can compare with a number: a number, or a
    missing value. *)
Definition numeric (c : cell) : bool :=
  match c with
  | VStr _ => false
  | _ => true
  end.

(** A column entry that is text or missing, as [Team] is. *)
Definition text_or_missing (c : cell) : bool :=
  match c with
  | VStr _ | VNone => true
  | _ => false
  end.

(** The strict order of strings by code point. *)
Definition string_lt (s t : string) : Prop := String.compare s t = Lt.

(** The outcome [out] of a piece of code is the value [v]: it ends with a
    reference to an object that holds [v]'s table, or it raises what [v]
    raises. *)
Definition yields (out : result loc * state) (v : result DataFrame) : Prop :=
  match out with
  | (Ok l, σ) => ∃ t, heap σ !! l = Some t ∧ v = Ok t
  | (Raise e, _) => v = Raise e
  end.

(** No object that [σ] holds is changed or lost in [σ']. *)
Definition preserved (σ σ' : state) : Prop := heap σ ⊆ heap σ'.

(** The same, but for the object behind [l]. *)
Definition preserved_but (l : loc) (σ σ' : state) : Prop :=
  delete l (heap σ) ⊆ heap σ'.

End Value.
Export Value.

(* ================================================================== *)
(** ** The order of stages the specification describes *)
(* ================================================================== *)

Module Spec.

(** Follows the specification, not the script: "Fetcher, then Deriver,
    then Filter Pipeline", that is
    [filterByTeam(filterByPA(deriveAndProject(fetched), minPA), team)]. *)
Definition derive_first (batting_stats : Z → Z → result DataFrame)
    (year min_pa : Z) (team : cell) : M loc :=
  df ← fetch_data batting_stats year;
  df ← clean_data df;
  df ← filterByPA df min_pa;
  filterByTeam df team.

End Spec.

(* ================================================================== *)
(** ** Sample data *)
(* ================================================================== *)

Module Sample.

(** The two-player season of the specification's scenario. *)
Definition season : DataFrame :=
  {| columns := ["Name"; "Team"; "PA"; "OBP"; "SLG"; "WAR"; "HR"; "AVG"];
     rows :=
       [ {| label := 0;
            cells := [VStr "A"; VStr "NYY"; VInt 150; VFloat 0.3; VFloat 0.45;
                      VFloat 3; VInt 10; VFloat 0.25] |};
         {| label := 1;
            cells := [VStr "B"; VStr "BOS"; VInt 50; VFloat 0.35; VFloat 0.5;
                      VFloat 2; VInt 5; VFloat 0.28] |} ] |}.

(** An old season for which the provider has no on-base percentage. *)
Definition old_season : DataFrame :=
  {| columns := ["Name"; "Team"; "PA"; "SLG"; "WAR"; "HR"; "AVG"];
     rows :=
       [ {| label := 0;
            cells := [VStr "A"; VStr "NYY"; VInt 150; VFloat 0.45;
                      VFloat 3; VInt 10; VFloat 0.25] |} ] |}.

(** The columns of [season] and no rows. *)
Definition no_rows : DataFrame := {| columns := columns season; rows := [] |}.

(** A provider that has the season 2024 and fails for every other year. *)
Definition provider (year qual : Z) : result DataFrame :=
  if year =? 2024 then Ok season else Raise (Exception "HTTP Error 500").

(** A state whose only object, behind reference 0, holds [t]. *)
Definition only (t : DataFrame) : state := alloc init t.

(** A provider that has only the old season, for every year. *)
Definition old_provider (year qual : Z) : result DataFrame := Ok old_season.

(** A season whose table has no [Team] column. *)
Definition teamless_season : DataFrame :=
  {| columns := ["Name"; "PA"; "OBP"; "SLG"];
     rows := [ {| label := 0; cells := [VStr "A"; VInt 150; VFloat 0.3; VFloat 0.45] |} ] |}.

Definition teamless_provider (year qual : Z) : result DataFrame := Ok teamless_season.

(** A season whose table has no [PA] column. *)
Definition PA_less_season : DataFrame :=
  {| columns := ["Name"; "Team"; "OBP"; "SLG"];
     rows := [ {| label := 0; cells := [VStr "A"; VStr "NYY"; VFloat 0.3; VFloat 0.45] |} ] |}.

Definition PA_less_provider (year qual : Z) : result DataFrame := Ok PA_less_season.

End Sample.

(* ================================================================== *)
(** ** The widgets of the sidebar (lines 31-45) *)
(* ================================================================== *)

Module Widgets.

(** [range(start, stop, -1)]: [start], [start - 1], and so on down to
    [stop + 1]; empty when [start <= stop]. *)
Definition range_down (start stop : Z) : list Z :=
  (λ i : nat, start - Z.of_nat i) <$> seq 0 (Z.to_nat (start - stop)).

(** Line 35: the options of the year selector, [range(current_year, 1899, -1)],
    where [current_year] is the year of [pd.Timestamp.now()]. *)
Definition year_options (current_year : Z) : list Z := range_down current_year 1899.

(** Lines 33-37: the year the selector returns: the option the user has
    picked, the option at [index=0] until then, [None] when there is no
    option at all. *)
Definition year_selectbox (options : list Z) (choice : nat) : option Z :=
  match options !! choice with
  | Some y => Some y
  | None => head options
  end.

End Widgets.
Export Widgets.

(* ================================================================== *)
(** ** Season tables and their rows *)
(* ================================================================== *)

Module Rows.

(** An entry that is a number, as [OBP] and [SLG] are. *)
Definition number (c : cell) : bool :=
  match c with
  | VInt _ | VFloat _ => true
  | _ => false
  end.

(** Every entry of column [c] of table [t] passes the test [P]. *)
Definition column_all (P : cell → bool) (t : DataFrame) (c : string) : Prop :=
  ∀ r v, r ∈ rows t → row_get t c r = Some v → P v = true.

(** A table as the provider returns it for a season: one cell per column in
    every row, no column name twice, the columns the script reads by name,
    plate appearances that are numbers or missing, rates that are numbers,
    teams that are text or [None]. *)
Definition season_table (t : DataFrame) : Prop :=
  wf t ∧
  NoDup (columns t) ∧
  (∀ c, c ∈ ["PA"; "OBP"; "SLG"; "Team"] → c ∈ columns t) ∧
  column_all numeric t "PA" ∧
  column_all number t "OBP" ∧
  column_all number t "SLG" ∧
  column_all text_or_missing t "Team".

(** Row [r'] of table [t'] is row [r] of table [t] as far as the columns
    [cs] go: the same label, and the same entry under each of them. *)
Definition same_row (cs : list string) (t t' : DataFrame) (r r' : Row) : Prop :=
  label r = label r' ∧ ∀ c, c ∈ cs → row_get t' c r' = row_get t c r.

(** The [OPS] entry of row [r'] of [t'] is the sum of the [OBP] and [SLG]
    entries of row [r] of [t]. *)
Definition OPS_is_sum (t t' : DataFrame) (r r' : Row) : Prop :=
  ∃ a b v, row_get t "OBP" r = Some a ∧ row_get t "SLG" r = Some b ∧
           py_add a b = Ok v ∧ row_get t' "OPS" r' = Some v.

(** Row [r'] of [t'] and row [r] of [t] are the same player: the same
    label and the same team. *)
Definition same_player (t t' : DataFrame) (r r' : Row) : Prop :=
  label r = label r' ∧ row_get t' "Team" r' = row_get t "Team" r.

(** The test of lines 61-62 on row [r] of table [t] for the option [sel]
    of the team selector: everything passes for ["All"], and for a team
    name the rows of that team. *)
Definition team_selected (t : DataFrame) (sel : cell) (r : Row) : bool :=
  match sel with
  | VStr team => String.eqb team "All" || on_team t team r
  | _ => false
  end.

(** The exceptions that the lines of the script can raise themselves: a
    column read by name is missing, or an operator meets operands it does
    not support. *)
Definition script_error (e : exn) : Prop :=
  e ∈ [KeyError "PA"; KeyError "OBP"; KeyError "SLG"; KeyError "Team"] ∨
  ∃ msg, e = TypeError msg.

End Rows.
Export Rows.

(** Membership of a name in a list of names written out in full. *)
Ltac in_names :=
  rewrite ?elem_of_cons, ?elem_of_nil; by repeat (first [left; reflexivity | right]).
Ltac not_in_names :=
  rewrite ?not_elem_of_cons; repeat split; (done || apply not_elem_of_nil).

(** A list of names written out in full has no name twice. *)
Ltac distinct_names :=
  repeat (apply NoDup_cons_2; [not_in_names|]); apply NoDup_nil_2.

(** The sample seasons name each column once. *)
Lemma season_distinct : NoDup (columns Sample.season).
Proof. cbn [columns Sample.season]. distinct_names. Qed.

Lemma old_season_distinct : NoDup (columns Sample.old_season).
Proof. cbn [columns Sample.old_season]. distinct_names. Qed.

(* ================================================================== *)
(** ** Running the code: the store and the pandas operations *)
(* ================================================================== *)

Section Runs.

Implicit Types (σ : state) (l : loc) (t : DataFrame).

Lemma bind_run {A B : Type} (m : M A) (f : A → M B) σ :
  (m ≫= f) σ =
  match m σ with
  | (Ok a, σ') => f a σ'
  | (Raise e, σ') => (Raise e, σ')
  end.
Proof. reflexivity. Qed.

Lemma next_fresh σ : heap σ !! next σ = None.
Proof. unfold next. apply not_elem_of_dom, is_fresh. Qed.

Lemma alloc_lookup σ t : heap (alloc σ t) !! next σ = Some t.
Proof. apply lookup_insert_eq. Qed.

Lemma alloc_keeps σ t : heap σ ⊆ heap (alloc σ t).
Proof. apply insert_subseteq, next_fresh. Qed.

Lemma alloc_lookup_old σ t l t0 :
  heap σ !! l = Some t0 → heap (alloc σ t) !! l = Some t0.
Proof. intros H. eapply lookup_weaken; [exact H | apply alloc_keeps]. Qed.

Lemma table_of_alloc σ t : table_of (Ok (next σ), alloc σ t) = Ok t.
Proof. unfold table_of, load. by rewrite alloc_lookup. Qed.

Section Object.

Variables (σ : state) (l : loc) (t : DataFrame).
Hypothesis Hl : heap σ !! l = Some t.

Lemma load_run : load l σ = (Ok t, σ).
Proof. unfold load. by rewrite Hl. Qed.

Lemma df_empty_run : df_empty l σ = (Ok (empty t), σ).
Proof. unfold df_empty. by rewrite bind_run, load_run. Qed.

Lemma df_columns_run : df_columns l σ = (Ok (columns t), σ).
Proof. unfold df_columns. by rewrite bind_run, load_run. Qed.

Lemma df_getitem_run c : df_getitem l c σ = (getitem t c, σ).
Proof. unfold df_getitem. by rewrite bind_run, load_run. Qed.

Lemma df_setitem_run c s :
  df_setitem l c s σ =
  match setitem t c s with
  | Ok t' => (Ok (), update σ l t')
  | Raise e => (Raise e, σ)
  end.
Proof.
  unfold df_setitem. rewrite bind_run, load_run, bind_run. unfold lift.
  by destruct (setitem t c s).
Qed.

Lemma df_getitem_list_run cs :
  df_getitem_list l cs σ =
  match getitem_list t cs with
  | Ok t' => (Ok (next σ), alloc σ t')
  | Raise e => (Raise e, σ)
  end.
Proof.
  unfold df_getitem_list. rewrite bind_run, load_run, bind_run. unfold lift.
  by destruct (getitem_list t cs).
Qed.

Lemma df_getitem_mask_run mask :
  df_getitem_mask l mask σ =
  match getitem_mask t mask with
  | Ok t' => (Ok (next σ), alloc σ t')
  | Raise e => (Raise e, σ)
  end.
Proof.
  unfold df_getitem_mask. rewrite bind_run, load_run, bind_run. unfold lift.
  by destruct (getitem_mask t mask).
Qed.

(** The plate-appearance filter returns a new object and changes no
    other. *)
Lemma filterByPA_run min_pa :
  filterByPA l min_pa σ =
  match pa_filter t min_pa with
  | Ok t' => (Ok (next σ), alloc σ t')
  | Raise e => (Raise e, σ)
  end.
Proof.
  unfold filterByPA, pa_filter.
  rewrite bind_run, df_getitem_run.
  destruct (getitem t "PA") as [pa|e]; [|done].
  rewrite bind_run. unfold lift. cbn [mbind result_bind].
  destruct (series_ge pa min_pa) as [mask|e]; [|done].
  apply df_getitem_mask_run.
Qed.

Lemma team_options_run : team_options l σ = (options t, σ).
Proof.
  unfold team_options, options.
  rewrite bind_run, df_getitem_run.
  destruct (getitem t "Team") as [team|e]; [|done].
  rewrite bind_run. unfold lift. cbn [mbind result_bind].
  by destruct (sorted (unique (dropna team))).
Qed.

Lemma filterByTeam_run team :
  filterByTeam l team σ =
  if py_eq team (VStr "All") then (Ok l, σ)
  else match team_filter t team with
       | Ok t' => (Ok (next σ), alloc σ t')
       | Raise e => (Raise e, σ)
       end.
Proof.
  unfold filterByTeam, team_filter.
  destruct (py_eq team (VStr "All")); [done|]. cbn [negb].
  rewrite bind_run, df_getitem_run.
  destruct (getitem t "Team") as [s|e]; [|done].
  apply df_getitem_mask_run.
Qed.

End Object.

End Runs.

(* ================================================================== *)
(** ** Columns *)
(* ================================================================== *)

Section Columns.

Implicit Types (t : DataFrame) (c : string) (cs : list string).

Lemma column_index_None c cs : c ∉ cs → column_index c cs = None.
Proof.
  intros Hc. unfold column_index.
  destruct (list_find (λ c', c' = c) cs) as [[i c']|] eqn:E; [|done].
  apply list_find_Some in E as (Hi & -> & _).
  destruct Hc. by eapply list_elem_of_lookup_2.
Qed.

Lemma column_index_Some c cs :
  c ∈ cs → ∃ i, column_index c cs = Some i ∧ cs !! i = Some c.
Proof.
  intros Hc. unfold column_index.
  destruct (list_find (λ c', c' = c) cs) as [[i c']|] eqn:E.
  - apply list_find_Some in E as (Hi & -> & _). by exists i.
  - apply list_find_None in E. rewrite Forall_forall in E. by destruct (E c).
Qed.

Lemma column_index_is_Some c cs : is_Some (column_index c cs) ↔ c ∈ cs.
Proof.
  split.
  - intros [i Hi]. destruct (decide (c ∈ cs)) as [|Hn]; [done|].
    by rewrite (column_index_None _ _ Hn) in Hi.
  - intros Hc. destruct (column_index_Some _ _ Hc) as (i & -> & _). by eexists.
Qed.

Lemma getitem_missing t c : c ∉ columns t → getitem t c = Raise (KeyError c).
Proof. intros Hc. unfold getitem. by rewrite column_index_None. Qed.

Lemma getitem_present t c :
  c ∈ columns t → getitem t c = Ok ((λ r, default VNone (row_get t c r)) <$> rows t).
Proof.
  intros Hc. unfold getitem, row_get.
  destruct (column_index_Some _ _ Hc) as (i & -> & _). done.
Qed.

Lemma getitem_length t c s : getitem t c = Ok s → length s = length (rows t).
Proof.
  unfold getitem. destruct (column_index c (columns t)); [|done].
  intros [= <-]. apply length_fmap.
Qed.

Lemma mapR_length {A B : Type} (f : A → result B) (xs : list A) (ys : list B) :
  mapR f xs = Ok ys → length ys = length xs.
Proof.
  revert ys. induction xs as [|x xs IH]; intros ys; cbn.
  - by intros [= <-].
  - destruct (f x) as [y|]; [|done]. cbn.
    destruct (mapR f xs) as [ys'|]; [|done]. cbn.
    intros [= <-]. cbn. f_equal. by apply IH.
Qed.

(** The sum of two columns of one table has an entry per row. *)
Lemma series_add_length s1 s2 s :
  series_add s1 s2 = Ok s → length s = Nat.min (length s1) (length s2).
Proof.
  unfold series_add. intros H%mapR_length. by rewrite length_zip in H.
Qed.

(** [df[cs]] succeeds when every name of [cs] is a column, and then has
    exactly the columns [cs], in the order of [cs]. *)
Lemma getitem_list_present t cs :
  (∀ c, c ∈ cs → c ∈ columns t) →
  getitem_list t cs =
  Ok {| columns := cs;
        rows := (λ r, {| label := label r;
                         cells := (λ c, default VNone (row_get t c r)) <$> cs |})
                  <$> rows t |}.
Proof.
  intros Hcs. unfold getitem_list.
  assert (∃ idxs,
    mapR (λ c, match column_index c (columns t) with
               | Some i => Ok i
               | None => Raise (KeyError c)
               end) cs = Ok idxs ∧
    ∀ r, (λ i, cell_at i r) <$> idxs = (λ c, default VNone (row_get t c r)) <$> cs)
    as (idxs & -> & Hidx).
  { induction cs as [|c cs IH]; [by exists []|].
    destruct IH as (idxs & Hm & Hi); [intros; apply Hcs; by right|].
    destruct (column_index_Some c (columns t)) as (i & Ei & _); [apply Hcs; by left|].
    exists (i :: idxs). cbn. rewrite Ei. cbn. rewrite Hm. cbn. split; [done|].
    intros r. cbn. rewrite Hi. unfold row_get. rewrite Ei. done. }
  cbn. do 2 f_equal. apply list_fmap_ext. intros _ r _. by rewrite Hidx.
Qed.

(** Lines 23-25 never raise: the names they ask for are columns. *)
Lemma projection_run t :
  projection t =
  Ok {| columns := filter (λ c, c ∈ columns t) cols;
        rows := (λ r, {| label := label r;
                         cells := (λ c, default VNone (row_get t c r))
                                    <$> filter (λ c, c ∈ columns t) cols |})
                  <$> rows t |}.
Proof.
  unfold projection. apply getitem_list_present.
  intros c Hc. by apply list_elem_of_filter in Hc as [? _].
Qed.

(** The columns after [df[c] = s]. *)
Lemma setitem_columns t c s t' :
  setitem t c s = Ok t' →
  columns t' = if bool_decide (c ∈ columns t) then columns t else (columns t ++ [c])%list.
Proof.
  unfold setitem. case_bool_decide; [|done].
  case_bool_decide as Hc.
  - destruct (column_index_Some _ _ Hc) as (i & -> & _). by intros [= <-].
  - rewrite (column_index_None _ _ Hc). by intros [= <-].
Qed.

Lemma setitem_rows_length t c s t' :
  setitem t c s = Ok t' → length (rows t') = length (rows t).
Proof.
  unfold setitem. case_bool_decide as Hlen; [|done].
  destruct (column_index c (columns t)); intros [= <-]; cbn;
    rewrite length_zip_with; lia.
Qed.

Lemma setitem_succeeds t c s :
  length s = length (rows t) → ∃ t', setitem t c s = Ok t'.
Proof.
  intros H. unfold setitem. rewrite bool_decide_eq_true_2 by done.
  destruct (column_index c (columns t)); eauto.
Qed.

Lemma with_OPS_columns t t' :
  with_OPS t = Ok t' →
  "OBP" ∈ columns t ∧ "SLG" ∈ columns t ∧
  columns t' = if bool_decide ("OPS" ∈ columns t) then columns t
               else (columns t ++ ["OPS"])%list.
Proof.
  unfold with_OPS. intros H.
  destruct (decide ("OBP" ∈ columns t)) as [Ho|Ho];
    [|by rewrite (getitem_missing _ _ Ho) in H].
  destruct (getitem t "OBP") as [obp|]; [|done]. cbn in H.
  destruct (decide ("SLG" ∈ columns t)) as [Hs|Hs];
    [|by rewrite (getitem_missing _ _ Hs) in H].
  destruct (getitem t "SLG") as [slg|]; [|done]. cbn in H.
  destruct (series_add obp slg) as [ops|]; [|done]. cbn in H.
  by apply setitem_columns in H.
Qed.

Lemma with_OPS_nonempty t t' : with_OPS t = Ok t' → empty t = false → empty t' = false.
Proof.
  intros H He. pose proof H as (_ & _ & Hc)%with_OPS_columns.
  assert (length (rows t') = length (rows t)) as Hr.
  { unfold with_OPS in H.
    destruct (getitem t "OBP"); [|done]. cbn in H.
    destruct (getitem t "SLG"); [|done]. cbn in H.
    destruct (series_add _ _); [|done]. cbn in H.
    by apply setitem_rows_length in H. }
  unfold empty in *. rewrite Hc.
  destruct (columns t) as [|c0 cs]; [done|]. destruct (rows t) as [|r0 rs]; [done|].
  destruct (rows t'); [done|]. by case_bool_decide.
Qed.

End Columns.

(* ================================================================== *)
(** ** [clean_data] *)
(* ================================================================== *)

Section CleanData.

Variables (σ : state) (l : loc) (t : DataFrame).
Hypothesis Hl : heap σ !! l = Some t.

Lemma update_lookup t' : heap (update σ l t') !! l = Some t'.
Proof. apply lookup_insert_eq. Qed.

Lemma next_update t' : next (update σ l t') = next σ.
Proof. unfold next, update. cbn. by rewrite dom_insert_lookup_L. Qed.

(** One call of [clean_data]: an empty table comes back as it is, the
    same object.  Otherwise line 21 writes the [OPS] column into the
    argument itself, and the value is a new object with the projection. *)
Lemma clean_data_run :
  clean_data l σ =
  if empty t then (Ok l, σ)
  else match with_OPS t with
       | Raise e => (Raise e, σ)
       | Ok t1 =>
           match projection t1 with
           | Ok t2 => (Ok (next σ), alloc (update σ l t1) t2)
           | Raise e => (Raise e, update σ l t1)
           end
       end.
Proof.
  unfold clean_data, with_OPS.
  rewrite bind_run, (df_empty_run _ _ _ Hl).
  destruct (empty t); [done|]. cbn [negb].
  rewrite bind_run, (df_getitem_run _ _ _ Hl).
  destruct (getitem t "OBP") as [obp|e]; [|done]. cbn [mbind result_bind].
  rewrite bind_run, (df_getitem_run _ _ _ Hl).
  destruct (getitem t "SLG") as [slg|e]; [|done]. cbn [mbind result_bind].
  rewrite bind_run. unfold lift.
  destruct (series_add obp slg) as [ops|e]; [|done]. cbn [mbind result_bind].
  rewrite bind_run, (df_setitem_run _ _ _ Hl).
  destruct (setitem t "OPS" ops) as [t1|e]; [|done].
  rewrite bind_run, (df_columns_run _ _ _ (update_lookup t1)).
  rewrite (df_getitem_list_run _ _ _ (update_lookup t1)).
  fold (projection t1). rewrite next_update.
  destruct (projection t1); [|done].
  unfold alloc. by rewrite next_update.
Qed.

Lemma clean_data_lookup t1 t2 : heap (alloc (update σ l t1) t2) !! next σ = Some t2.
Proof. rewrite <- (next_update t1). apply alloc_lookup. Qed.

Lemma clean_data_table : table_of (clean_data l σ) = clean t.
Proof.
  rewrite clean_data_run. unfold clean.
  destruct (empty t).
  - cbn. by rewrite (load_run _ _ _ Hl).
  - destruct (with_OPS t) as [t1|e]; [|done]. cbn [mbind result_bind].
    destruct (projection t1) as [t2|e]; [|done].
    rewrite <- (next_update t1). apply table_of_alloc.
Qed.

(** On a table that has rows and columns but lacks [OBP] or [SLG], line
    21 raises [KeyError] and nothing has changed. *)
Lemma clean_data_missing_column :
  empty t = false →
  "OBP" ∉ columns t ∨ "SLG" ∉ columns t →
  ∃ c, (c = "OBP" ∨ c = "SLG") ∧ clean_data l σ = (Raise (KeyError c), σ).
Proof.
  intros He Hc. rewrite clean_data_run, He. unfold with_OPS.
  destruct (decide ("OBP" ∈ columns t)) as [Ho|Ho].
  - destruct Hc as [Hc|Hc]; [done|]. exists "SLG". split; [by right|].
    rewrite (getitem_present _ _ Ho). cbn. by rewrite (getitem_missing _ _ Hc).
  - exists "OBP". split; [by left|]. by rewrite (getitem_missing _ _ Ho).
Qed.

End CleanData.

(* ================================================================== *)
(** ** The shape of the tables *)
(* ================================================================== *)

Section Shape.

Implicit Types (t : DataFrame) (r : Row).

Lemma getitem_mask_wf t (mask : list bool) t' :
  wf t → getitem_mask t mask = Ok t' → wf t'.
Proof.
  unfold wf, getitem_mask. intros Hwf. case_bool_decide; [|done]. intros [= <-]. cbn.
  rewrite Forall_forall in Hwf |- *. intros r Hr. apply Hwf.
  apply list_elem_of_fmap in Hr as ([r0 b] & -> & Hr).
  apply list_elem_of_filter in Hr as [_ Hr]. by apply elem_of_zip_l in Hr.
Qed.

Lemma getitem_list_wf t (cs : list string) t' : getitem_list t cs = Ok t' → wf t'.
Proof.
  unfold wf, getitem_list.
  destruct (mapR _ cs) as [idxs|] eqn:E; [|done]. cbn. intros [= <-]. cbn.
  apply Forall_fmap, Forall_forall. intros r _. cbn.
  rewrite length_fmap. by apply mapR_length in E.
Qed.

Lemma zip_with_Forall {A B C : Type} (f : A → B → C) (P : A → Prop) (Q : C → Prop)
    (xs : list A) (ys : list B) :
  (∀ x y, P x → Q (f x y)) → Forall P xs → Forall Q (zip_with f xs ys).
Proof.
  intros Hf Hxs. revert ys. induction Hxs as [|x xs Hx _ IH]; intros [|y ys]; cbn;
    constructor; auto.
Qed.

Lemma setitem_wf t (c : string) (s : Series) t' : wf t → setitem t c s = Ok t' → wf t'.
Proof.
  unfold wf, setitem. intros Hwf. case_bool_decide; [|done].
  destruct (column_index c (columns t)) as [i|]; intros [= <-]; cbn.
  - eapply zip_with_Forall; [|exact Hwf]. intros r v Hr. cbn. by rewrite length_insert.
  - eapply zip_with_Forall; [|exact Hwf]. intros r v Hr. cbn.
    rewrite !length_app, Hr. done.
Qed.

(** Each piece of the script keeps one cell per column in every row. *)
Lemma pa_filter_wf t (min_pa : Z) t' : wf t → pa_filter t min_pa = Ok t' → wf t'.
Proof.
  unfold pa_filter. intros Hwf.
  destruct (getitem t "PA") as [pa|]; [|done]. cbn.
  destruct (series_ge pa min_pa) as [mask|]; [|done]. cbn.
  by apply getitem_mask_wf.
Qed.

Lemma clean_wf t t' : wf t → clean t = Ok t' → wf t'.
Proof.
  unfold clean. intros Hwf. destruct (empty t); [by intros [= <-]|].
  destruct (with_OPS t) as [t1|]; [|done]. cbn. apply getitem_list_wf.
Qed.

Lemma team_filter_wf t (team : cell) t' : wf t → team_filter t team = Ok t' → wf t'.
Proof.
  unfold team_filter. intros Hwf. destruct (negb _); [|by intros [= <-]].
  destruct (getitem t "Team") as [s|]; [|done]. cbn. by apply getitem_mask_wf.
Qed.

Lemma pipeline_wf t (min_pa : Z) (choice : nat) t' :
  wf t → pipeline t min_pa choice = Ok t' → wf t'.
Proof.
  unfold pipeline. intros Hwf.
  assert (∀ t1, (if empty t then Ok t else t0 ← pa_filter t min_pa; clean t0) = Ok t1
                → wf t1) as H1.
  { intros t1. destruct (empty t); [by intros [= <-]|].
    destruct (pa_filter t min_pa) as [t0|] eqn:E; [|done]. cbn.
    apply clean_wf. by eapply pa_filter_wf. }
  destruct (if empty t then _ else _) as [t1|]; [|done]. cbn.
  specialize (H1 t1 eq_refl).
  destruct (empty t1); [by intros [= <-]|].
  destruct (options t1) as [teams|]; [|done]. cbn. by apply team_filter_wf.
Qed.

Lemma empty_false_iff t : empty t = false ↔ columns t ≠ [] ∧ rows t ≠ [].
Proof. unfold empty. destruct (columns t), (rows t); naive_solver. Qed.

(** A table that [clean_data] has derived, fed to [clean_data] again, stops
    at line 21: the projection has left no [OBP] column. *)
Lemma clean_twice_raises t t1 :
  empty t = false → clean t = Ok t1 → clean t1 = Raise (KeyError "OBP").
Proof.
  unfold clean at 1. intros He. rewrite He.
  destruct (with_OPS t) as [t0|] eqn:E0; [|done]. cbn [mbind result_bind].
  rewrite projection_run.
  intros [= <-].
  pose proof (with_OPS_nonempty _ _ E0 He) as He0.
  apply with_OPS_columns in E0 as (_ & _ & Hc).
  assert ("OPS" ∈ columns t0) as Hops.
  { rewrite Hc. case_bool_decide; [done|]. apply elem_of_app. right. by left. }
  unfold clean.
  assert (empty {| columns := filter (λ c, c ∈ columns t0) cols;
                   rows := (λ r, {| label := label r;
                                    cells := (λ c, default VNone (row_get t0 c r))
                                               <$> filter (λ c, c ∈ columns t0) cols |})
                             <$> rows t0 |} = false) as ->.
  { apply empty_false_iff in He0 as [_ Hrows]. apply empty_false_iff.
    cbn [columns rows]. split.
    - intros Ef.
      assert ("OPS" ∈ filter (λ c, c ∈ columns t0) cols) as Hin.
      { apply list_elem_of_filter. split; [done|]. unfold cols. in_names. }
      rewrite Ef in Hin. by apply elem_of_nil in Hin.
    - by intros ?%fmap_nil_inv. }
  unfold with_OPS. rewrite (getitem_missing _ "OBP"); [reflexivity|]. cbn [columns].
  intros [_ Hin]%list_elem_of_filter. contradict Hin. unfold cols. not_in_names.
Qed.

End Shape.

(** The sum of two columns of one table can be written back to it. *)
Lemma with_OPS_run (t : DataFrame) (obp slg ops : Series) :
  getitem t "OBP" = Ok obp → getitem t "SLG" = Ok slg → series_add obp slg = Ok ops →
  ∃ t1, with_OPS t = Ok t1 ∧ setitem t "OPS" ops = Ok t1.
Proof.
  intros Ho Hs Ha. unfold with_OPS. rewrite Ho. cbn. rewrite Hs. cbn. rewrite Ha. cbn.
  destruct (setitem_succeeds t "OPS" ops) as [t1 Ht1]; [|by exists t1].
  apply series_add_length in Ha.
  apply getitem_length in Ho, Hs. lia.
Qed.

(** C1 (the code departs from the claim): on a table with rows and columns
    but without the [OBP] column, [clean_data] raises [KeyError] at line 21
    instead of returning a table without [OPS]. *)
Theorem clean_data_raises_without_OBP :
  empty Sample.old_season = false ∧
  ("OBP" ∉ columns Sample.old_season) ∧
  clean_data 0%nat (Sample.only Sample.old_season)
  = (Raise (KeyError "OBP"), Sample.only Sample.old_season).
Proof.
  split; [reflexivity|]. split.
  - cbn. not_in_names.
  - assert (heap (Sample.only Sample.old_season) !! 0%nat = Some Sample.old_season)
      as Hl by reflexivity.
    rewrite (clean_data_run _ _ _ Hl). reflexivity.
Qed.

(** C2 (the code departs from the claim): [clean_data] succeeds on the
    sample season and returns a table with an [OPS] column; applied to that
    table it raises [KeyError], because the first call has dropped [OBP]. *)
Theorem clean_data_twice_raises :
  ∃ (l1 : loc) (σ1 : state) (t1 : DataFrame),
    clean_data 0%nat (Sample.only Sample.season) = (Ok l1, σ1) ∧
    heap σ1 !! l1 = Some t1 ∧
    ("OPS" ∈ columns t1) ∧
    clean_data l1 σ1 = (Raise (KeyError "OBP"), σ1).
Proof.
  assert (heap (Sample.only Sample.season) !! 0%nat = Some Sample.season)
    as Hl by reflexivity.
  pose proof (clean_data_run _ _ _ Hl) as Hrun.
  destruct (with_OPS Sample.season) as [t1|] eqn:E1; [|by vm_compute in E1].
  rewrite projection_run in Hrun. change (empty Sample.season) with false in Hrun.
  eexists _, _, _. split; [exact Hrun|]. split; [apply (clean_data_lookup _ _ _ Hl)|].
  vm_compute in E1. injection E1 as <-. split.
  - cbn. in_names.
  - erewrite clean_data_run by (apply (clean_data_lookup _ _ _ Hl)). reflexivity.
Qed.

(** C10: on a table with rows and columns, whose column names are distinct
    and whose [OBP] and [SLG] columns can be added, [clean_data] returns a
    table whose columns are the names of [Name, WAR, OPS, HR, AVG, Team]
    that the input has, with [OPS] counted in, in the order of that list;
    no other column is left, so [PA], [OBP] and [SLG] are gone.  (Under a
    name that the input carries twice, [df[available_cols]] of line 24
    returns every column of that name, so that the result then has more
    columns than the list has names: hence the distinct names.) *)
Theorem clean_data_columns (σ : state) (l : loc) (t : DataFrame) (obp slg ops : Series) :
  heap σ !! l = Some t →
  empty t = false →
  NoDup (columns t) →
  getitem t "OBP" = Ok obp →
  getitem t "SLG" = Ok slg →
  series_add obp slg = Ok ops →
  ∃ (l' : loc) (σ' : state) (t' : DataFrame),
    clean_data l σ = (Ok l', σ') ∧
    heap σ' !! l' = Some t' ∧
    columns t' = filter (λ c, c ∈ columns t ∨ c = "OPS") cols ∧
    columns t' `sublist_of` cols ∧
    (∀ c, c ∈ columns t' ↔ c ∈ cols ∧ (c ∈ columns t ∨ c = "OPS")) ∧
    ("OPS" ∈ columns t') ∧
    ("PA" ∉ columns t') ∧ ("OBP" ∉ columns t') ∧ ("SLG" ∉ columns t').
Proof.
  intros Hl He _ Ho Hs Ha.
  destruct (with_OPS_run t obp slg ops Ho Hs Ha) as (t1 & H1 & _).
  pose proof (clean_data_run _ _ _ Hl) as Hrun.
  rewrite He, H1, projection_run in Hrun.
  eexists _, _, _. split; [exact Hrun|]. split; [apply (clean_data_lookup _ _ _ Hl)|].
  cbn [columns].
  assert (filter (λ c, c ∈ columns t1) cols
          = filter (λ c, c ∈ columns t ∨ c = "OPS") cols) as ->.
  { apply list_filter_iff. intros c.
    apply with_OPS_columns in H1 as (_ & _ & ->).
    case_bool_decide as Hc.
    - split; [by left|]. by intros [?| ->].
    - rewrite elem_of_app, list_elem_of_singleton. done. }
  assert (∀ c, c ∈ filter (λ c, c ∈ columns t ∨ c = "OPS") cols
               ↔ c ∈ cols ∧ (c ∈ columns t ∨ c = "OPS")) as Hin.
  { intros c. rewrite list_elem_of_filter. tauto. }
  split; [done|]. split; [apply sublist_filter|]. split; [exact Hin|].
  split; [apply Hin; split; [unfold cols; in_names | by right]|].
  repeat split; intros [Hc _]%Hin; contradict Hc; unfold cols; not_in_names.
Qed.

(** The sample season is such a table. *)
Lemma clean_data_columns_sample :
  ∃ (l' : loc) (σ' : state) (t' : DataFrame),
    clean_data 0%nat (Sample.only Sample.season) = (Ok l', σ') ∧
    heap σ' !! l' = Some t' ∧
    columns t' = filter (λ c, c ∈ columns Sample.season ∨ c = "OPS") cols ∧
    columns t' `sublist_of` cols ∧
    (∀ c, c ∈ columns t' ↔ c ∈ cols ∧ (c ∈ columns Sample.season ∨ c = "OPS")) ∧
    ("OPS" ∈ columns t') ∧
    ("PA" ∉ columns t') ∧ ("OBP" ∉ columns t') ∧ ("SLG" ∉ columns t').
Proof.
  eapply (clean_data_columns (Sample.only Sample.season) 0%nat Sample.season);
    try reflexivity.
  apply season_distinct.
Defined.

(* ================================================================== *)
(** ** The filters *)
(* ================================================================== *)

Section Filters.

Implicit Types (t : DataFrame) (r : Row) (s : Series).

(** A mask computed row by row keeps the rows that pass, in order. *)
Lemma zip_filter_fmap {A : Type} (p : A → bool) (xs : list A) :
  fst <$> filter (λ q, snd q = true) (zip xs (p <$> xs)) = filter (λ x, p x = true) xs.
Proof.
  induction xs as [|x xs IH]; [done|].
  rewrite fmap_cons. cbn [zip_with]. rewrite !filter_cons. cbn [snd].
  destruct (decide (p x = true)) as [Hp|Hp].
  - rewrite fmap_cons. cbn [fst]. by rewrite IH.
  - exact IH.
Qed.

Lemma getitem_mask_fmap t (p : Row → bool) :
  getitem_mask t (p <$> rows t)
  = Ok {| columns := columns t; rows := filter (λ r, p r = true) (rows t) |}.
Proof.
  unfold getitem_mask. rewrite bool_decide_eq_true_2 by apply length_fmap.
  by rewrite zip_filter_fmap.
Qed.

Lemma float_compare_Z_nan (x : float) (n : Z) :
  PrimFloat.is_nan x = true → float_compare_Z x n = None.
Proof. intros H. unfold float_compare_Z, Prim2SF. by rewrite H. Qed.

(** Line 50 on one entry that is a number or missing. *)
Lemma ge_numeric (c : cell) (n : Z) :
  numeric c = true →
  (if isna c then Ok false else py_ge c (VInt n)) = Ok (at_least n c).
Proof.
  destruct c as [m|x|s|]; [| | done | done]; intros _; cbn.
  - unfold py_ge. cbn. rewrite Z.leb_compare, (Z.compare_antisym m n).
    by destruct (m ?= n).
  - destruct (PrimFloat.is_nan x) eqn:E.
    + by rewrite float_compare_Z_nan.
    + unfold py_ge. cbn. by destruct (float_compare_Z x n) as [[]|].
Qed.

Lemma series_ge_numeric s (n : Z) :
  Forall (λ c, numeric c = true) s → series_ge s n = Ok (at_least n <$> s).
Proof.
  unfold series_ge. induction 1 as [|c s Hc _ IH]; [done|].
  cbn. rewrite (ge_numeric _ _ Hc). cbn. by rewrite IH.
Qed.

(** The value of line 50 on a table whose [PA] entries are numbers or
    missing. *)
Lemma pa_filter_numeric t (n : Z) :
  "PA" ∈ columns t →
  (∀ r c, r ∈ rows t → row_get t "PA" r = Some c → numeric c = true) →
  pa_filter t n
  = Ok {| columns := columns t; rows := filter (λ r, PA_at_least t n r = true) (rows t) |}.
Proof.
  intros Hc Hnum. unfold pa_filter. rewrite (getitem_present _ _ Hc). cbn.
  destruct (column_index_Some _ _ Hc) as (i & Hi & _).
  rewrite series_ge_numeric.
  - cbn. rewrite <- list_fmap_compose.
    rewrite (getitem_mask_fmap t (at_least n ∘ (λ r, default VNone (row_get t "PA" r)))).
    do 2 f_equal. apply list_filter_iff. intros r. unfold PA_at_least. cbn.
    unfold row_get. by rewrite Hi.
  - apply Forall_fmap, Forall_forall. intros r Hr. cbn.
    apply (Hnum r); [done|]. unfold row_get. by rewrite Hi.
Qed.

Lemma string_compare_refl (x : string) : String.compare x x = Eq.
Proof. by apply (String_as_OT.cmp_eq x x). Qed.

(** Line 62 on one entry. *)
Lemma eq_team (c : cell) (team : string) :
  negb (isna c) && negb (isna (VStr team)) && py_eq c (VStr team) = is_team team c.
Proof.
  destruct c as [m|x|s|]; cbn; [done| by rewrite !andb_false_r | | done].
  unfold py_eq. cbn. destruct (String.eqb_spec s team) as [->|Hs].
  - by rewrite string_compare_refl.
  - destruct (String.compare s team) eqn:E; try done.
    apply String.compare_eq_iff in E. by subst.
Qed.

Lemma is_team_iff (c : cell) (team : string) : is_team team c = true ↔ c = VStr team.
Proof.
  destruct c as [m|x|s|]; cbn; try (split; [discriminate|by intros [=]]).
  rewrite String.eqb_eq. split; [by intros ->|by intros [= ->]].
Qed.

Lemma on_team_iff t (team : string) r :
  on_team t team r = true ↔ row_get t "Team" r = Some (VStr team).
Proof.
  unfold on_team. destruct (row_get t "Team" r) as [c|]; [|done].
  rewrite is_team_iff. split; [by intros ->|by intros [= ->]].
Qed.

Lemma not_All (team : string) : team ≠ "All" → py_eq (VStr team) (VStr "All") = false.
Proof.
  intros Hteam. pose proof (eq_team (VStr team) "All") as H.
  cbn [isna negb andb] in H. rewrite H. by apply String.eqb_neq.
Qed.

Lemma team_filter_team t (team : string) :
  team ≠ "All" →
  "Team" ∈ columns t →
  team_filter t (VStr team)
  = Ok {| columns := columns t; rows := filter (λ r, on_team t team r = true) (rows t) |}.
Proof.
  intros Hteam Hc. unfold team_filter. rewrite (not_All _ Hteam). cbn [negb].
  rewrite (getitem_present _ _ Hc). cbn [mbind result_bind].
  unfold series_eq. rewrite <- list_fmap_compose.
  rewrite (getitem_mask_fmap t _). do 2 f_equal.
  apply list_filter_iff. intros r. unfold compose. rewrite eq_team.
  unfold on_team. by destruct (row_get t "Team" r).
Qed.

End Filters.

(** C6: on a table whose [PA] column holds numbers (or missing values),
    the plate-appearance filter returns a new table with the same columns
    and exactly the rows whose [PA] is at least [min_pa], the bound
    included; those rows are rows of the input, in their order. *)
Theorem filterByPA_keeps_rows_at_least (σ : state) (l : loc) (t : DataFrame) (min_pa : Z) :
  heap σ !! l = Some t →
  "PA" ∈ columns t →
  (∀ r c, r ∈ rows t → row_get t "PA" r = Some c → numeric c = true) →
  ∃ t' : DataFrame,
    filterByPA l min_pa σ = (Ok (next σ), alloc σ t') ∧
    columns t' = columns t ∧
    rows t' = filter (λ r, PA_at_least t min_pa r = true) (rows t) ∧
    (∀ r, r ∈ rows t' ↔ r ∈ rows t ∧ PA_at_least t min_pa r = true) ∧
    rows t' `sublist_of` rows t ∧
    (∀ r n, row_get t "PA" r = Some (VInt n) →
            (PA_at_least t min_pa r = true ↔ min_pa ≤ n)).
Proof.
  intros Hl Hc Hnum. eexists. split.
  { rewrite (filterByPA_run _ _ _ Hl), (pa_filter_numeric _ _ Hc Hnum). done. }
  cbn. split; [done|]. split; [done|]. split; [|split].
  - intros r. rewrite list_elem_of_filter. tauto.
  - apply sublist_filter.
  - intros r n Hr. unfold PA_at_least. rewrite Hr. cbn. apply Z.leb_le.
Qed.

(** The sample season with the bound 100: player A stays, player B goes. *)
Lemma filterByPA_sample :
  ∃ t' : DataFrame,
    filterByPA 0%nat 100 (Sample.only Sample.season)
    = (Ok (next (Sample.only Sample.season)), alloc (Sample.only Sample.season) t') ∧
    columns t' = columns Sample.season ∧
    rows t' = filter (λ r, PA_at_least Sample.season 100 r = true) (rows Sample.season) ∧
    (∀ r, r ∈ rows t' ↔ r ∈ rows Sample.season ∧ PA_at_least Sample.season 100 r = true) ∧
    rows t' `sublist_of` rows Sample.season ∧
    (∀ r n, row_get Sample.season "PA" r = Some (VInt n) →
            (PA_at_least Sample.season 100 r = true ↔ 100 ≤ n)).
Proof.
  apply (filterByPA_keeps_rows_at_least (Sample.only Sample.season) 0%nat Sample.season 100).
  - reflexivity.
  - cbn. in_names.
  - intros r c Hr. cbn in Hr.
    repeat (apply elem_of_cons in Hr as [->|Hr]; [by intros [= <-]|]).
    by apply elem_of_nil in Hr.
Defined.

(** C7: with the selector ["All"] the team filter returns its argument, the
    same object, and changes nothing; with any other team name it returns
    a new table with the same columns and exactly the rows whose [Team]
    entry is that name, in their order. *)
Theorem filterByTeam_All_or_exact (σ : state) (l : loc) (t : DataFrame) (team : string) :
  heap σ !! l = Some t →
  "Team" ∈ columns t →
  filterByTeam l (VStr "All") σ = (Ok l, σ) ∧
  (team ≠ "All" →
   ∃ t' : DataFrame,
     filterByTeam l (VStr team) σ = (Ok (next σ), alloc σ t') ∧
     columns t' = columns t ∧
     rows t' = filter (λ r, on_team t team r = true) (rows t) ∧
     (∀ r, r ∈ rows t' ↔ r ∈ rows t ∧ row_get t "Team" r = Some (VStr team)) ∧
     rows t' `sublist_of` rows t).
Proof.
  intros Hl Hc. split; [done|]. intros Hteam. eexists. split.
  { by rewrite (filterByTeam_run _ _ _ Hl), (team_filter_team _ _ Hteam Hc), not_All. }
  cbn. split; [done|]. split; [done|]. split.
  - intros r. by rewrite list_elem_of_filter, on_team_iff, (comm and).
  - apply sublist_filter.
Qed.

(** The sample season and the team BOS. *)
Lemma filterByTeam_sample :
  filterByTeam 0%nat (VStr "All") (Sample.only Sample.season)
  = (Ok 0%nat, Sample.only Sample.season) ∧
  ("BOS" ≠ "All" →
   ∃ t' : DataFrame,
     filterByTeam 0%nat (VStr "BOS") (Sample.only Sample.season)
     = (Ok (next (Sample.only Sample.season)), alloc (Sample.only Sample.season) t') ∧
     columns t' = columns Sample.season ∧
     rows t' = filter (λ r, on_team Sample.season "BOS" r = true) (rows Sample.season) ∧
     (∀ r, r ∈ rows t' ↔ r ∈ rows Sample.season
                          ∧ row_get Sample.season "Team" r = Some (VStr "BOS")) ∧
     rows t' `sublist_of` rows Sample.season).
Proof.
  apply (filterByTeam_All_or_exact (Sample.only Sample.season) 0%nat Sample.season "BOS").
  - reflexivity.
  - cbn. in_names.
Defined.

(* ================================================================== *)
(** ** The team selector's options *)
(* ================================================================== *)

Section Options.

Implicit Types (x y : string) (names : list string).

Lemma filter_fmap {A B : Type} (f : A → B) (P : B → Prop) `{!∀ b, Decision (P b)}
    (xs : list A) :
  filter P (f <$> xs) = f <$> filter (λ a, P (f a)) xs.
Proof.
  induction xs as [|a xs IH]; [done|].
  rewrite fmap_cons, !filter_cons. destruct (decide (P (f a))); [|done].
  by rewrite fmap_cons, IH.
Qed.

Lemma string_lt_trans x y z : string_lt x y → string_lt y z → string_lt x z.
Proof.
  unfold string_lt. intros Hxy Hyz.
  apply (String_as_OT.cmp_lt x z).
  eapply String_as_OT.lt_trans; by apply String_as_OT.cmp_lt.
Qed.

Lemma string_lt_irrefl x : ¬ string_lt x x.
Proof. unfold string_lt. by rewrite string_compare_refl. Qed.

(** Two different strings are ordered one way or the other. *)
Lemma string_lt_total x y : x ≠ y → String.compare y x ≠ Lt → string_lt x y.
Proof.
  unfold string_lt. intros Hne Hyx. rewrite String.compare_antisym.
  destruct (String.compare y x) eqn:E; [|done|done].
  apply String.compare_eq_iff in E. by subst.
Qed.

Lemma py_eq_str x y : py_eq (VStr x) (VStr y) = String.eqb x y.
Proof. pose proof (eq_team (VStr x) y) as H. by cbn [isna negb andb] in H. Qed.

Lemma py_lt_str x y :
  py_lt (VStr x) (VStr y) = Ok (if String.compare x y is Lt then true else false).
Proof. unfold py_lt. cbn. by destruct (String.compare x y). Qed.

(** [dropna] on a column of text and missing values leaves the text. *)
Lemma dropna_text (s : Series) :
  Forall (λ c, text_or_missing c = true) s →
  ∃ names, dropna s = VStr <$> names ∧ ∀ x, x ∈ names ↔ VStr x ∈ s.
Proof.
  unfold dropna. induction 1 as [|c s Hc _ (names & IH & Hin)].
  - exists []. split; [done|]. intros x. by rewrite !elem_of_nil.
  - destruct c as [| |y|]; try done.
    + exists (y :: names). rewrite filter_cons_True by done. rewrite IH.
      split; [done|]. intros x. rewrite !elem_of_cons, Hin. naive_solver.
    + exists names. rewrite filter_cons_False by done.
      split; [done|]. intros x. rewrite elem_of_cons, Hin. naive_solver.
Qed.

(** [unique] on strings: the same strings, each once. *)
Lemma unique_text names :
  ∃ names', unique (VStr <$> names) = VStr <$> names' ∧
            NoDup names' ∧ ∀ x, x ∈ names' ↔ x ∈ names.
Proof.
  induction names as [|y names (names' & IH & Hnd & Hin)].
  - exists []. split; [done|]. split; [constructor|done].
  - exists (y :: filter (λ x, x ≠ y) names'). cbn. rewrite IH. split; [|split].
    + f_equal. rewrite filter_fmap. f_equal. apply list_filter_iff.
      intros x. change (py_eq (VStr y) (VStr x) = false ↔ x ≠ y).
      rewrite py_eq_str, String.eqb_neq. naive_solver.
    + constructor; [|by apply NoDup_filter].
      rewrite list_elem_of_filter. naive_solver.
    + intros x. rewrite !elem_of_cons, list_elem_of_filter, Hin.
      destruct (decide (x = y)); naive_solver.
Qed.

(** Insertion into a sorted list of strings that lacks the new one. *)
Lemma insert_sorted_text x names :
  StronglySorted string_lt names → x ∉ names →
  ∃ names', insert_sorted (VStr x) (VStr <$> names) = Ok (VStr <$> names') ∧
            StronglySorted string_lt names' ∧ names' ≡ₚ x :: names.
Proof.
  induction 1 as [|y names Hsorted IH Hy]; intros Hx.
  - exists [x]. split; [done|]. split; [by repeat constructor|done].
  - apply not_elem_of_cons in Hx as [Hxy Hx].
    rewrite fmap_cons. cbn [insert_sorted]. rewrite py_lt_str. cbn [mbind result_bind].
    destruct (String.compare y x) eqn:E.
    + apply String.compare_eq_iff in E. by subst.
    + destruct (IH Hx) as (names' & -> & Hs' & Hp). cbn [mbind result_bind].
      exists (y :: names'). split; [done|]. split.
      * constructor; [done|]. rewrite Hp. by constructor.
      * rewrite Hp. apply Permutation_swap.
    + exists (x :: y :: names). split; [done|]. split; [|done].
      assert (string_lt x y) as Hlt by (apply string_lt_total; [done|by rewrite E]).
      constructor; [by constructor|]. constructor; [done|].
      eapply Forall_impl; [exact Hy|]. intros z. by apply string_lt_trans.
Qed.

(** [sorted] on distinct strings: the same strings in ascending order. *)
Lemma sorted_text names :
  NoDup names →
  ∃ names', sorted (VStr <$> names) = Ok (VStr <$> names') ∧
            StronglySorted string_lt names' ∧ names' ≡ₚ names.
Proof.
  induction 1 as [|x names Hx _ (names1 & IH & Hs & Hp)].
  - exists []. split; [done|]. split; [constructor|done].
  - rewrite fmap_cons. cbn [sorted]. rewrite IH. cbn [mbind result_bind].
    destruct (insert_sorted_text x names1 Hs) as (names' & -> & Hs' & Hp').
    { by rewrite Hp. }
    exists names'. split; [done|]. split; [done|]. by rewrite Hp', Hp.
Qed.

(** Line 58 on a table whose [Team] column holds text or missing values. *)
Lemma options_text (t : DataFrame) :
  "Team" ∈ columns t →
  (∀ r c, r ∈ rows t → row_get t "Team" r = Some c → text_or_missing c = true) →
  ∃ names,
    options t = Ok (VStr "All" :: (VStr <$> names)) ∧
    StronglySorted string_lt names ∧
    NoDup names ∧
    ∀ x, x ∈ names ↔ ∃ r, r ∈ rows t ∧ row_get t "Team" r = Some (VStr x).
Proof.
  intros Hc Htext. unfold options. rewrite (getitem_present _ _ Hc). cbn [mbind result_bind].
  destruct (column_index_Some _ _ Hc) as (i & Hi & _).
  set (col := (λ r, default VNone (row_get t "Team" r)) <$> rows t).
  assert (∀ r, row_get t "Team" r = Some (cell_at i r)) as Hget.
  { intros r. unfold row_get. by rewrite Hi. }
  destruct (dropna_text col) as (n1 & -> & H1).
  { apply Forall_fmap, Forall_forall. intros r Hr. cbn.
    apply (Htext r); [done|]. by rewrite Hget. }
  destruct (unique_text n1) as (n2 & -> & Hnd & H2).
  destruct (sorted_text n2 Hnd) as (n3 & -> & Hs & Hp).
  exists n3. split; [done|]. split; [done|]. split; [by rewrite Hp|].
  intros x. rewrite Hp, H2, H1. unfold col. rewrite list_elem_of_fmap.
  split.
  - intros (r & Hx & Hr). exists r. split; [done|]. rewrite Hget in Hx |- *.
    cbn in Hx. by rewrite Hx.
  - intros (r & Hr & Hx). exists r. split; [|done]. by rewrite Hx.
Qed.

End Options.

(** C9: on a table whose [Team] column holds text (or missing values), the
    options of the team selector are ["All"] followed by the team names
    that occur in the table, each once, in ascending order; computing them
    changes nothing. *)
Theorem team_options_All_then_sorted_teams (σ : state) (l : loc) (t : DataFrame) :
  heap σ !! l = Some t →
  "Team" ∈ columns t →
  (∀ r c, r ∈ rows t → row_get t "Team" r = Some c → text_or_missing c = true) →
  ∃ names : list string,
    team_options l σ = (Ok (VStr "All" :: (VStr <$> names)), σ) ∧
    StronglySorted string_lt names ∧
    NoDup names ∧
    (∀ x, x ∈ names ↔ ∃ r, r ∈ rows t ∧ row_get t "Team" r = Some (VStr x)).
Proof.
  intros Hl Hc Htext.
  destruct (options_text t Hc Htext) as (names & Ho & Hrest).
  exists names. split; [|exact Hrest].
  by rewrite (team_options_run _ _ _ Hl), Ho.
Qed.

(** The sample season: the options are All, BOS, NYY. *)
Lemma team_options_sample :
  ∃ names : list string,
    team_options 0%nat (Sample.only Sample.season)
    = (Ok (VStr "All" :: (VStr <$> names)), Sample.only Sample.season) ∧
    StronglySorted string_lt names ∧
    NoDup names ∧
    (∀ x, x ∈ names ↔ ∃ r, r ∈ rows Sample.season
                           ∧ row_get Sample.season "Team" r = Some (VStr x)).
Proof.
  apply (team_options_All_then_sorted_teams (Sample.only Sample.season) 0%nat Sample.season).
  - reflexivity.
  - cbn. in_names.
  - intros r c Hr. cbn in Hr.
    repeat (apply elem_of_cons in Hr as [->|Hr]; [by intros [= <-]|]).
    by apply elem_of_nil in Hr.
Defined.

(* ================================================================== *)
(** ** [fetch_data] and the stages of the script *)
(* ================================================================== *)

Section Stages.

Variable batting_stats : Z → Z → result DataFrame.
Implicit Types (σ : state) (l : loc) (t : DataFrame).

Lemma fetch_data_run (year : Z) σ :
  fetch_data batting_stats year σ =
  match batting_stats year 10 with
  | Ok t => (Ok (next σ), alloc σ t)
  | Raise e =>
      if is_Exception e then
        (Ok (next σ),
         alloc (say σ (st_error ("Error fetching data for " +:+ pretty year
                                 +:+ ": " +:+ str_exn e))) DataFrame_new)
      else (Raise e, σ)
  end.
Proof.
  unfold fetch_data, try_except. rewrite bind_run. unfold lift.
  destruct (batting_stats year 10) as [t|e]; [done|].
  by destruct (is_Exception e).
Qed.

Lemma derive_stage_run σ l t (min_pa : Z) :
  heap σ !! l = Some t →
  derive_stage l min_pa σ =
  if empty t then (Ok l, σ)
  else match pa_filter t min_pa with
       | Ok t1 => clean_data (next σ) (alloc σ t1)
       | Raise e => (Raise e, σ)
       end.
Proof.
  intros Hl. unfold derive_stage. rewrite bind_run, (df_empty_run _ _ _ Hl).
  destruct (empty t); [done|]. cbn [negb].
  rewrite bind_run, (filterByPA_run _ _ _ Hl).
  by destruct (pa_filter t min_pa).
Qed.

Lemma team_stage_run σ l t (selected_year : Z) (choice : nat) :
  heap σ !! l = Some t →
  team_stage l selected_year choice σ =
  if empty t then
    (Ok l, say σ (st_warning "No data available for the selected season."))
  else
    let σ1 := say σ (st_header (pretty selected_year +:+ " Season Leaders")) in
    match options t with
    | Ok teams => filterByTeam l (selectbox teams choice) σ1
    | Raise e => (Raise e, σ1)
    end.
Proof.
  intros Hl. unfold team_stage. rewrite bind_run, (df_empty_run _ _ _ Hl).
  destruct (empty t); [done|]. cbn [negb].
  rewrite bind_run. unfold emit at 1. cbn zeta.
  rewrite bind_run, (team_options_run _ l t) by done.
  by destruct (options t).
Qed.

(** *** What each piece yields *)

Lemma yields_table_of out v : yields out v → table_of out = v.
Proof.
  destruct out as [[l|e] σ]; cbn; [|done].
  intros (t & Hl & ->). by rewrite (load_run _ _ _ Hl).
Qed.

Lemma yields_alloc σ t : yields (Ok (next σ), alloc σ t) (Ok t).
Proof. exists t. split; [apply alloc_lookup|done]. Qed.

Lemma yields_bind (m : M loc) (f : loc → M loc) σ v (g : DataFrame → result DataFrame) :
  yields (m σ) v →
  (∀ l σ' t, heap σ' !! l = Some t → yields (f l σ') (g t)) →
  yields ((m ≫= f) σ) (v ≫= g).
Proof.
  intros Hm Hf. rewrite bind_run. destruct (m σ) as [[l|e] σ']; cbn in Hm.
  - destruct Hm as (t & Hl & ->). by apply Hf.
  - by subst.
Qed.

Lemma fetch_data_yields (year : Z) σ :
  yields (fetch_data batting_stats year σ) (fetched batting_stats year).
Proof.
  rewrite fetch_data_run. unfold fetched.
  destruct (batting_stats year 10) as [t|e]; [apply yields_alloc|].
  destruct (is_Exception e); [|done]. apply (yields_alloc (say σ _)).
Qed.

Lemma clean_data_yields σ l t : heap σ !! l = Some t → yields (clean_data l σ) (clean t).
Proof.
  intros Hl. rewrite (clean_data_run _ _ _ Hl). unfold clean.
  destruct (empty t); [by exists t|].
  destruct (with_OPS t) as [t1|e]; [|done]. cbn [mbind result_bind].
  rewrite projection_run. eexists. split; [apply (clean_data_lookup _ _ _ Hl)|done].
Qed.

Lemma filterByPA_yields σ l t (min_pa : Z) :
  heap σ !! l = Some t → yields (filterByPA l min_pa σ) (pa_filter t min_pa).
Proof.
  intros Hl. rewrite (filterByPA_run _ _ _ Hl).
  destruct (pa_filter t min_pa); [apply yields_alloc|done].
Qed.

Lemma filterByTeam_yields σ l t (team : cell) :
  heap σ !! l = Some t → yields (filterByTeam l team σ) (team_filter t team).
Proof.
  intros Hl. rewrite (filterByTeam_run _ _ _ Hl).
  destruct (py_eq team (VStr "All")) eqn:E.
  - exists t. split; [done|]. unfold team_filter. by rewrite E.
  - destruct (team_filter t team); [apply yields_alloc|done].
Qed.

Lemma derive_stage_yields σ l t (min_pa : Z) :
  heap σ !! l = Some t →
  yields (derive_stage l min_pa σ)
         (if empty t then Ok t else t' ← pa_filter t min_pa; clean t').
Proof.
  intros Hl. rewrite (derive_stage_run _ _ _ _ Hl).
  destruct (empty t); [by exists t|].
  destruct (pa_filter t min_pa) as [t1|e]; [|done].
  apply clean_data_yields, alloc_lookup.
Qed.

Lemma team_stage_yields σ l t (selected_year : Z) (choice : nat) :
  heap σ !! l = Some t →
  yields (team_stage l selected_year choice σ)
         (if empty t then Ok t
          else teams ← options t; team_filter t (selectbox teams choice)).
Proof.
  intros Hl. rewrite (team_stage_run _ _ _ _ _ Hl).
  destruct (empty t); [by exists t|]. cbn zeta.
  destruct (options t) as [teams|e]; [|done].
  by apply filterByTeam_yields.
Qed.

(** The script computes [pipeline] on the fetched table. *)
Lemma main_yields (selected_year min_pa : Z) (choice : nat) σ :
  yields (main batting_stats selected_year min_pa choice σ)
         (t ← fetched batting_stats selected_year; pipeline t min_pa choice).
Proof.
  unfold main.
  apply (yields_bind _ _ _ _ (λ t, pipeline t min_pa choice));
    [apply fetch_data_yields|].
  intros l σ1 t Hl. unfold pipeline.
  apply (yields_bind _ _ _ _
           (λ t1, if empty t1 then Ok t1
                  else teams ← options t1; team_filter t1 (selectbox teams choice)));
    [by apply derive_stage_yields|].
  intros l' σ2 t1 Hl'. by apply team_stage_yields.
Qed.

End Stages.

(** C5: when the provider raises an exception of class [Exception],
    [fetch_data] does not raise: it puts an error message that names the
    year and the exception on the page, and returns a new table that has
    no rows (and no columns). *)
Theorem fetch_data_failure_gives_empty_table
    (batting_stats : Z → Z → result DataFrame) (year : Z) (e : exn) (σ : state) :
  batting_stats year 10 = Raise e →
  is_Exception e = true →
  fetch_data batting_stats year σ
  = (Ok (next σ),
     alloc (say σ (st_error ("Error fetching data for " +:+ pretty year
                             +:+ ": " +:+ str_exn e))) DataFrame_new) ∧
  table_of (fetch_data batting_stats year σ) = Ok DataFrame_new ∧
  rows DataFrame_new = [] ∧
  empty DataFrame_new = true.
Proof.
  intros Hfail Hexn.
  pose proof (fetch_data_yields batting_stats year σ) as Hy.
  apply yields_table_of in Hy.
  rewrite fetch_data_run, Hfail, Hexn in *. split; [done|]. split; [|done].
  rewrite Hy. unfold fetched. by rewrite Hfail, Hexn.
Qed.

(** The sample provider has no season 1999. *)
Lemma fetch_data_failure_sample :
  fetch_data Sample.provider 1999 init
  = (Ok (next init),
     alloc (say init (st_error ("Error fetching data for " +:+ pretty 1999
                                +:+ ": " +:+ str_exn (Exception "HTTP Error 500"))))
           DataFrame_new) ∧
  table_of (fetch_data Sample.provider 1999 init) = Ok DataFrame_new ∧
  rows DataFrame_new = [] ∧
  empty DataFrame_new = true.
Proof.
  apply (fetch_data_failure_gives_empty_table Sample.provider 1999
           (Exception "HTTP Error 500") init); reflexivity.
Defined.

(** The scenario of the specification: with the bound 100 and the selector
    on "All", the run keeps player A only, with OPS 0.750. *)
Example scenario_player_A :
  table_of (main Sample.provider 2024 100 0 init)
  = Ok {| columns := ["Name"; "WAR"; "OPS"; "HR"; "AVG"; "Team"];
          rows := [ {| label := 0;
                       cells := [VStr "A"; VFloat 3; VFloat 0.75; VInt 10;
                                 VFloat 0.25; VStr "NYY"] |} ] |}.
Proof. vm_compute. reflexivity. Qed.

(** C3, as the specification states it, fails: on the sample season with
    the bound 100 and the selector on "All", the script hands over the
    derived row of player A, while deriving first and filtering afterwards
    raises [KeyError], because the deriver has dropped the [PA] column. *)
Lemma main_is_not_derive_first :
  table_of (main Sample.provider 2024 100 0 init)
  ≠ table_of (Spec.derive_first Sample.provider 2024 100 (VStr "All") init).
Proof.
  assert (table_of (Spec.derive_first Sample.provider 2024 100 (VStr "All") init)
          = Raise (KeyError "PA")) as -> by (vm_compute; reflexivity).
  rewrite (yields_table_of _ _ (main_yields Sample.provider 2024 100 0 init)).
  vm_compute. discriminate.
Qed.

(** C3, amended: the table that the script hands to the presentation code
    is the fetched table put through the plate-appearance filter first,
    then [clean_data], then the team filter (this is [pipeline]); the first
    two are skipped when the fetched table is empty and the third when the
    derived one is. *)
Theorem main_filters_by_PA_then_derives
    (batting_stats : Z → Z → result DataFrame)
    (selected_year min_pa : Z) (choice : nat) (σ : state) :
  table_of (main batting_stats selected_year min_pa choice σ)
  = (t ← fetched batting_stats selected_year;
     t1 ← (if empty t then Ok t else t' ← pa_filter t min_pa; clean t');
     if empty t1 then Ok t1
     else teams ← options t1; team_filter t1 (selectbox teams choice)).
Proof. apply yields_table_of, main_yields. Qed.

(** C8: an empty table goes through the script unchanged and without an
    exception.  [clean_data] returns the object it was given; the stage of
    the plate-appearance filter and the stage of the team filter skip their
    filter and return the object they were given, the latter after a
    warning on the page; so a run that fetches an empty table ends with
    that table.  Where the filters themselves are applied to a table that
    has their column but no rows, they return a table with no rows. *)
Theorem empty_table_passes_through (t : DataFrame) :
  empty t = true →
  (∀ σ l (selected_year min_pa : Z) (choice : nat),
     heap σ !! l = Some t →
     clean_data l σ = (Ok l, σ) ∧
     derive_stage l min_pa σ = (Ok l, σ) ∧
     team_stage l selected_year choice σ
     = (Ok l, say σ (st_warning "No data available for the selected season."))) ∧
  (∀ (batting_stats : Z → Z → result DataFrame) σ
     (selected_year min_pa : Z) (choice : nat),
     fetched batting_stats selected_year = Ok t →
     ∃ l σ', main batting_stats selected_year min_pa choice σ = (Ok l, σ') ∧
             heap σ' !! l = Some t) ∧
  (∀ (min_pa : Z), rows t = [] → "PA" ∈ columns t →
     ∃ t', pa_filter t min_pa = Ok t' ∧ rows t' = [] ∧ empty t' = true) ∧
  (∀ (team : cell), rows t = [] → "Team" ∈ columns t →
     ∃ t', team_filter t team = Ok t' ∧ rows t' = [] ∧ empty t' = true).
Proof.
  intros He. split; [|split; [|split]].
  - intros σ l y m ch Hl.
    by rewrite (clean_data_run _ _ _ Hl), (derive_stage_run _ _ _ _ Hl),
      (team_stage_run _ _ _ _ _ Hl), He.
  - intros bs σ y m ch Hf. unfold main. rewrite bind_run, fetch_data_run.
    unfold fetched in Hf.
    assert (∀ σ0, (derive_stage (next σ0) m ≫= λ df, team_stage df y ch) (alloc σ0 t)
                  = (Ok (next σ0),
                     say (alloc σ0 t)
                       (st_warning "No data available for the selected season.")))
      as Hrest.
    { intros σ0. rewrite bind_run.
      rewrite (derive_stage_run _ _ _ _ (alloc_lookup σ0 t)), He.
      by rewrite (team_stage_run _ _ _ _ _ (alloc_lookup σ0 t)), He. }
    destruct (bs y 10) as [t0|e].
    + injection Hf as ->. rewrite Hrest. eexists _, _. split; [done|].
      apply alloc_lookup.
    + destruct (is_Exception e); [|done]. injection Hf as <-.
      rewrite (Hrest (say σ _)). eexists _, _. split; [done|].
      apply (alloc_lookup (say σ _)).
  - intros m Hr Hc. unfold pa_filter. rewrite (getitem_present _ _ Hc), Hr. cbn.
    unfold getitem_mask. rewrite Hr. cbn. eexists. split; [done|]. split; [done|].
    unfold empty. cbn. by destruct (columns t).
  - intros team Hr Hc. unfold team_filter.
    destruct (py_eq team (VStr "All")); cbn [negb].
    + exists t. by rewrite Hr.
    + rewrite (getitem_present _ _ Hc), Hr. cbn.
      unfold getitem_mask. rewrite Hr. cbn. eexists. split; [done|]. split; [done|].
      unfold empty. cbn. by destruct (columns t).
Qed.

(** A season in which no player has come to bat: the columns, no rows. *)
Lemma empty_table_sample :
  (∀ σ l (selected_year min_pa : Z) (choice : nat),
     heap σ !! l = Some Sample.no_rows →
     clean_data l σ = (Ok l, σ) ∧
     derive_stage l min_pa σ = (Ok l, σ) ∧
     team_stage l selected_year choice σ
     = (Ok l, say σ (st_warning "No data available for the selected season."))) ∧
  (∀ (batting_stats : Z → Z → result DataFrame) σ
     (selected_year min_pa : Z) (choice : nat),
     fetched batting_stats selected_year = Ok Sample.no_rows →
     ∃ l σ', main batting_stats selected_year min_pa choice σ = (Ok l, σ') ∧
             heap σ' !! l = Some Sample.no_rows) ∧
  (∀ (min_pa : Z), rows Sample.no_rows = [] → "PA" ∈ columns Sample.no_rows →
     ∃ t', pa_filter Sample.no_rows min_pa = Ok t' ∧ rows t' = [] ∧ empty t' = true) ∧
  (∀ (team : cell), rows Sample.no_rows = [] → "Team" ∈ columns Sample.no_rows →
     ∃ t', team_filter Sample.no_rows team = Ok t' ∧ rows t' = [] ∧ empty t' = true).
Proof. apply (empty_table_passes_through Sample.no_rows). reflexivity. Defined.

(* ================================================================== *)
(** ** Which objects a piece of code changes *)
(* ================================================================== *)

Section Frame.

Implicit Types (σ : state) (l : loc) (t : DataFrame).

Lemma preserved_refl σ : preserved σ σ.
Proof. unfold preserved. done. Qed.

Lemma preserved_trans σ1 σ2 σ3 : preserved σ1 σ2 → preserved σ2 σ3 → preserved σ1 σ3.
Proof. unfold preserved. by intros ? ?; etrans. Qed.

Lemma preserved_alloc σ t : preserved σ (alloc σ t).
Proof. apply alloc_keeps. Qed.

Lemma preserved_say σ e : preserved σ (say σ e).
Proof. unfold preserved. by cbn. Qed.

Lemma preserved_but_update σ l t : preserved_but l σ (update σ l t).
Proof.
  unfold preserved_but, update. cbn. apply map_subseteq_spec. intros i x Hi.
  destruct (decide (i = l)) as [->|Hne].
  - by rewrite lookup_delete_eq in Hi.
  - rewrite lookup_delete_ne in Hi by done. by rewrite lookup_insert_ne.
Qed.

Lemma preserved_but_weaken l σ σ' : preserved σ σ' → preserved_but l σ σ'.
Proof. unfold preserved, preserved_but. intros H. etrans; [apply delete_subseteq|done]. Qed.

Lemma preserved_but_trans l σ1 σ2 σ3 :
  preserved_but l σ1 σ2 → preserved σ2 σ3 → preserved_but l σ1 σ3.
Proof. unfold preserved, preserved_but. by intros ? ?; etrans. Qed.

(** A new object is outside what was there before: what happens to it
    afterwards leaves the old objects alone. *)
Lemma preserved_after_alloc σ t σ' : preserved_but (next σ) (alloc σ t) σ' → preserved σ σ'.
Proof.
  unfold preserved, preserved_but, alloc. cbn.
  by rewrite delete_insert_eq, (delete_id _ _ (next_fresh σ)).
Qed.

(** A reference without an object stops the code at once. *)
Lemma load_dangling σ l :
  heap σ !! l = None → load l σ = (Raise (BaseException "dangling reference"), σ).
Proof. intros H. unfold load. by rewrite H. Qed.

Lemma filterByPA_preserved σ l (min_pa : Z) : preserved σ (snd (filterByPA l min_pa σ)).
Proof.
  destruct (heap σ !! l) as [t|] eqn:Hl.
  - rewrite (filterByPA_run _ _ _ Hl).
    destruct (pa_filter t min_pa); [apply preserved_alloc|apply preserved_refl].
  - unfold filterByPA, df_getitem. rewrite !bind_run, (load_dangling _ _ Hl).
    apply preserved_refl.
Qed.

Lemma filterByTeam_preserved σ l (team : cell) :
  preserved σ (snd (filterByTeam l team σ)).
Proof.
  destruct (heap σ !! l) as [t|] eqn:Hl.
  - rewrite (filterByTeam_run _ _ _ Hl).
    destruct (py_eq team (VStr "All")); [apply preserved_refl|].
    destruct (team_filter t team); [apply preserved_alloc|apply preserved_refl].
  - unfold filterByTeam, df_getitem.
    destruct (negb _); [|apply preserved_refl].
    rewrite !bind_run, (load_dangling _ _ Hl). apply preserved_refl.
Qed.

Lemma clean_data_preserved_but σ l : preserved_but l σ (snd (clean_data l σ)).
Proof.
  destruct (heap σ !! l) as [t|] eqn:Hl.
  - rewrite (clean_data_run _ _ _ Hl).
    destruct (empty t); [apply preserved_but_weaken, preserved_refl|].
    destruct (with_OPS t) as [t1|]; [|apply preserved_but_weaken, preserved_refl].
    destruct (projection t1); cbn [snd].
    + eapply preserved_but_trans; [apply preserved_but_update|apply preserved_alloc].
    + apply preserved_but_update.
  - unfold clean_data, df_empty. rewrite !bind_run, (load_dangling _ _ Hl).
    apply preserved_but_weaken, preserved_refl.
Qed.

Lemma derive_stage_preserved σ l (min_pa : Z) :
  preserved σ (snd (derive_stage l min_pa σ)).
Proof.
  destruct (heap σ !! l) as [t|] eqn:Hl.
  - rewrite (derive_stage_run _ _ _ _ Hl).
    destruct (empty t); [apply preserved_refl|].
    destruct (pa_filter t min_pa) as [t1|]; [|apply preserved_refl].
    apply (preserved_after_alloc σ t1), clean_data_preserved_but.
  - unfold derive_stage, df_empty. rewrite !bind_run, (load_dangling _ _ Hl).
    apply preserved_refl.
Qed.

Lemma team_stage_preserved σ l (selected_year : Z) (choice : nat) :
  preserved σ (snd (team_stage l selected_year choice σ)).
Proof.
  destruct (heap σ !! l) as [t|] eqn:Hl.
  - rewrite (team_stage_run _ _ _ _ _ Hl).
    destruct (empty t); [apply preserved_say|]. cbn zeta.
    destruct (options t) as [teams|]; [|apply preserved_say].
    eapply preserved_trans; [apply preserved_say|apply filterByTeam_preserved].
  - unfold team_stage, df_empty. rewrite !bind_run, (load_dangling _ _ Hl).
    apply preserved_refl.
Qed.

(** What follows [fetch_data] in the script. *)
Lemma after_fetch_preserved σ l (selected_year min_pa : Z) (choice : nat) :
  preserved σ
    (snd ((derive_stage l min_pa ≫= λ df, team_stage df selected_year choice) σ)).
Proof.
  rewrite bind_run.
  pose proof (derive_stage_preserved σ l min_pa) as H1.
  destruct (derive_stage l min_pa σ) as [[l1|e] σ1]; [|done].
  eapply preserved_trans; [exact H1|apply team_stage_preserved].
Qed.

Lemma fetch_data_preserved (batting_stats : Z → Z → result DataFrame) (year : Z) σ :
  preserved σ (snd (fetch_data batting_stats year σ)).
Proof.
  rewrite fetch_data_run. destruct (batting_stats year 10) as [t|e].
  - apply preserved_alloc.
  - destruct (is_Exception e); [|apply preserved_refl].
    eapply preserved_trans; [apply preserved_say|apply preserved_alloc].
Qed.

Lemma main_preserved (batting_stats : Z → Z → result DataFrame)
    (selected_year min_pa : Z) (choice : nat) σ :
  preserved σ (snd (main batting_stats selected_year min_pa choice σ)).
Proof.
  unfold main. rewrite bind_run.
  pose proof (fetch_data_preserved batting_stats selected_year σ) as H0.
  destruct (fetch_data batting_stats selected_year σ) as [[l0|e] σ0]; [|done].
  eapply preserved_trans; [exact H0|apply after_fetch_preserved].
Qed.

End Frame.

(** C4, as the specification states it, fails: [clean_data] changes the
    table it is given.  After the call on the sample season, the object
    that held the season holds it with an [OPS] column written into it. *)
Lemma clean_data_changes_its_argument :
  ¬ preserved (Sample.only Sample.season)
      (snd (clean_data 0%nat (Sample.only Sample.season))).
Proof.
  unfold preserved. intros H.
  assert (heap (Sample.only Sample.season) !! 0%nat = Some Sample.season) as Hl
    by reflexivity.
  pose proof (lookup_weaken _ _ _ _ Hl H) as H'.
  rewrite (clean_data_run _ _ _ Hl) in H'.
  vm_compute in H'. discriminate.
Qed.

(** C4, amended: the two filters and a whole run of the script leave every
    table that exists as it is, and what follows [fetch_data] in a run
    leaves the fetched table as it was fetched; a successful
    plate-appearance filter returns an object that did not exist before.
    [clean_data] leaves every table but its argument as it is; on an
    argument with rows and columns whose [OBP] and [SLG] can be added it
    writes the [OPS] column into the argument itself and returns the
    projection as an object that did not exist before. *)
Theorem filters_preserve_tables_clean_data_writes_OPS
    (batting_stats : Z → Z → result DataFrame) (σ : state) (l : loc)
    (selected_year min_pa : Z) (team : cell) (choice : nat) :
  preserved σ (snd (filterByPA l min_pa σ)) ∧
  preserved σ (snd (filterByTeam l team σ)) ∧
  preserved σ (snd (main batting_stats selected_year min_pa choice σ)) ∧
  preserved σ
    (snd ((derive_stage l min_pa ≫= λ df, team_stage df selected_year choice) σ)) ∧
  (∀ l', fst (filterByPA l min_pa σ) = Ok l' → heap σ !! l' = None) ∧
  preserved_but l σ (snd (clean_data l σ)) ∧
  (∀ t t1, heap σ !! l = Some t → empty t = false → with_OPS t = Ok t1 →
     ∃ l' σ', clean_data l σ = (Ok l', σ') ∧
              heap σ !! l' = None ∧
              heap σ' !! l = Some t1 ∧
              "OPS" ∈ columns t1).
Proof.
  split; [apply filterByPA_preserved|].
  split; [apply filterByTeam_preserved|].
  split; [apply main_preserved|].
  split; [apply after_fetch_preserved|].
  split; [|split; [apply clean_data_preserved_but|]].
  - intros l'. destruct (heap σ !! l) as [t|] eqn:Hl.
    + rewrite (filterByPA_run _ _ _ Hl).
      destruct (pa_filter t min_pa); [|done]. intros [= <-]. apply next_fresh.
    + unfold filterByPA, df_getitem. by rewrite !bind_run, (load_dangling _ _ Hl).
  - intros t t1 Hl He H1.
    rewrite (clean_data_run _ _ _ Hl), He, H1, projection_run.
    eexists _, _. split; [done|]. split; [apply next_fresh|]. split.
    + apply alloc_lookup_old, update_lookup.
    + apply with_OPS_columns in H1 as (_ & _ & ->).
      case_bool_decide; [done|]. apply elem_of_app. right. by left.
Qed.

(* ================================================================== *)
(** ** The year selector *)
(* ================================================================== *)

Section Years.

Implicit Types (start stop y : Z) (n k : nat).

Lemma elem_of_range_down start stop y :
  y ∈ range_down start stop ↔ stop < y ≤ start.
Proof.
  unfold range_down. rewrite list_elem_of_fmap. split.
  - intros (i & -> & Hi). apply elem_of_seq in Hi. lia.
  - intros Hy. exists (Z.to_nat (start - y)). split; [lia|].
    apply elem_of_seq. lia.
Qed.

Lemma range_down_sorted start stop :
  StronglySorted (λ a b, b < a) (range_down start stop).
Proof.
  unfold range_down. generalize (Z.to_nat (start - stop)) as n. generalize 0%nat as k.
  intros k n. revert k. induction n as [|n IH]; intros k; [constructor|].
  cbn. constructor; [apply IH|].
  apply Forall_fmap, Forall_seq. intros i Hi. cbn. lia.
Qed.

Lemma range_down_head start stop : stop < start → head (range_down start stop) = Some start.
Proof.
  intros H. unfold range_down.
  destruct (Z.to_nat (start - stop)) as [|n] eqn:E; [lia|]. cbn. f_equal. lia.
Qed.

Lemma range_down_nil start stop : start ≤ stop → range_down start stop = [].
Proof. intros H. unfold range_down. by replace (Z.to_nat (start - stop)) with 0%nat by lia. Qed.

Lemma year_selectbox_elem (options : list Z) (choice : nat) y :
  year_selectbox options choice = Some y → y ∈ options.
Proof.
  unfold year_selectbox. destruct (options !! choice) as [y'|] eqn:E.
  - intros [= <-]. by eapply list_elem_of_lookup_2.
  - destruct options as [|y0 ys]; [done|]. intros [= <-]. by left.
Qed.

End Years.

(** X1: the year selector offers exactly the years from 1900 to the current
    year, the newest first; it starts on the current year, it never
    returns a year outside that range, and when the current year is before
    1900 it has no option and returns no year. *)
Theorem year_selector_offers_1900_to_now (current_year : Z) :
  (∀ y, y ∈ year_options current_year ↔ 1900 ≤ y ≤ current_year) ∧
  StronglySorted (λ a b, b < a) (year_options current_year) ∧
  (1900 ≤ current_year → year_selectbox (year_options current_year) 0 = Some current_year) ∧
  (∀ choice y, year_selectbox (year_options current_year) choice = Some y →
               1900 ≤ y ≤ current_year) ∧
  (current_year < 1900 → ∀ choice, year_selectbox (year_options current_year) choice = None).
Proof.
  assert (∀ y, y ∈ year_options current_year ↔ 1900 ≤ y ≤ current_year) as Hin.
  { intros y. unfold year_options. rewrite elem_of_range_down. lia. }
  split; [exact Hin|]. split; [apply range_down_sorted|]. split; [|split].
  - intros H. unfold year_selectbox, year_options.
    pose proof (range_down_head current_year 1899) as Hh.
    destruct (range_down current_year 1899) as [|y0 ys]; cbn in *; apply Hh; lia.
  - intros choice y Hy. by apply Hin, (year_selectbox_elem _ choice).
  - intros H choice. unfold year_options. rewrite range_down_nil by lia.
    unfold year_selectbox. by rewrite lookup_nil.
Qed.

(* ================================================================== *)
(** ** What the script can raise *)
(* ================================================================== *)

Section Raises.

Implicit Types (t : DataFrame) (e : exn) (s : Series).

Lemma getitem_raise t (c : string) e : getitem t c = Raise e → e = KeyError c.
Proof. unfold getitem. destruct (column_index c (columns t)); [done|]. by intros [= <-]. Qed.

Lemma mapR_raise {A B : Type} (f : A → result B) (xs : list A) e :
  mapR f xs = Raise e → ∃ x, x ∈ xs ∧ f x = Raise e.
Proof.
  induction xs as [|x xs IH]; [done|]. cbn.
  destruct (f x) as [y|e'] eqn:E; cbn.
  - destruct (mapR f xs) as [ys|e']; [done|]. cbn. intros [= <-].
    destruct IH as (x' & Hx' & Hf); [done|]. exists x'. split; [by right|done].
  - intros [= <-]. exists x. split; [by left|done].
Qed.

Lemma py_ge_raise (a b : cell) e : py_ge a b = Raise e → ∃ msg, e = TypeError msg.
Proof. unfold py_ge. destruct (py_compare a b) as [[[]|]|]; intros [= <-]; eauto. Qed.

Lemma py_lt_raise (a b : cell) e : py_lt a b = Raise e → ∃ msg, e = TypeError msg.
Proof. unfold py_lt. destruct (py_compare a b) as [[[]|]|]; intros [= <-]; eauto. Qed.

Lemma py_add_raise (a b : cell) e : py_add a b = Raise e → ∃ msg, e = TypeError msg.
Proof. destruct a, b; cbn; intros [= <-]; eauto. Qed.

Lemma series_ge_raise s (n : Z) e : series_ge s n = Raise e → ∃ msg, e = TypeError msg.
Proof.
  intros (c & _ & Hc)%mapR_raise. destruct (isna c); [done|]. by eapply py_ge_raise.
Qed.

Lemma series_add_raise s1 s2 e : series_add s1 s2 = Raise e → ∃ msg, e = TypeError msg.
Proof. intros ([a b] & _ & Hc)%mapR_raise. by eapply py_add_raise. Qed.

Lemma insert_sorted_raise (x : cell) s e :
  insert_sorted x s = Raise e → ∃ msg, e = TypeError msg.
Proof.
  induction s as [|y s IH]; [done|]. cbn.
  destruct (py_lt y x) as [[]|e'] eqn:E; cbn.
  - destruct (insert_sorted x s); [done|]. cbn. intros [= <-]. by apply IH.
  - done.
  - intros [= <-]. by eapply py_lt_raise.
Qed.

Lemma sorted_raise s e : sorted s = Raise e → ∃ msg, e = TypeError msg.
Proof.
  induction s as [|x s IH]; [done|]. cbn.
  destruct (sorted s) as [s'|e']; cbn.
  - apply insert_sorted_raise.
  - intros [= <-]. by apply IH.
Qed.

(** A mask with one entry per row always selects. *)
Lemma getitem_mask_succeeds t (mask : list bool) :
  length mask = length (rows t) → ∃ t', getitem_mask t mask = Ok t'.
Proof. intros H. unfold getitem_mask. rewrite bool_decide_eq_true_2 by done. eauto. Qed.

Lemma series_ge_length s (n : Z) (mask : list bool) :
  series_ge s n = Ok mask → length mask = length s.
Proof. apply mapR_length. Qed.

Lemma pa_filter_raise t (min_pa : Z) e :
  pa_filter t min_pa = Raise e → e = KeyError "PA" ∨ ∃ msg, e = TypeError msg.
Proof.
  unfold pa_filter. destruct (getitem t "PA") as [pa|e'] eqn:Hpa; cbn.
  - destruct (series_ge pa min_pa) as [mask|e'] eqn:Hge; cbn.
    + destruct (getitem_mask_succeeds t mask) as [t' ->]; [|done].
      apply series_ge_length in Hge. apply getitem_length in Hpa. lia.
    + intros [= <-]. right. by eapply series_ge_raise.
  - intros [= <-]. left. by eapply getitem_raise.
Qed.

Lemma with_OPS_raise t e :
  with_OPS t = Raise e →
  e = KeyError "OBP" ∨ e = KeyError "SLG" ∨ ∃ msg, e = TypeError msg.
Proof.
  unfold with_OPS. destruct (getitem t "OBP") as [obp|e'] eqn:Ho; cbn.
  2:{ intros [= <-]. left. by eapply getitem_raise. }
  destruct (getitem t "SLG") as [slg|e'] eqn:Hs; cbn.
  2:{ intros [= <-]. right. left. by eapply getitem_raise. }
  destruct (series_add obp slg) as [ops|e'] eqn:Ha; cbn.
  2:{ intros [= <-]. right. right. by eapply series_add_raise. }
  destruct (with_OPS_run t obp slg ops Ho Hs Ha) as (t1 & _ & ->). done.
Qed.

Lemma clean_raise t e :
  clean t = Raise e →
  e = KeyError "OBP" ∨ e = KeyError "SLG" ∨ ∃ msg, e = TypeError msg.
Proof.
  unfold clean. destruct (empty t); [done|].
  destruct (with_OPS t) as [t1|e'] eqn:E; cbn [mbind result_bind].
  - by rewrite projection_run.
  - intros [= <-]. by apply with_OPS_raise in E.
Qed.

Lemma options_raise t e :
  options t = Raise e → e = KeyError "Team" ∨ ∃ msg, e = TypeError msg.
Proof.
  unfold options. destruct (getitem t "Team") as [team|e'] eqn:Ht; cbn.
  - destruct (sorted (unique (dropna team))) as [s|e'] eqn:Hs; cbn; [done|].
    intros [= <-]. right. by eapply sorted_raise.
  - intros [= <-]. left. by eapply getitem_raise.
Qed.

Lemma team_filter_raise t (team : cell) e :
  team_filter t team = Raise e → e = KeyError "Team".
Proof.
  unfold team_filter. destruct (negb _); [|done].
  destruct (getitem t "Team") as [s|e'] eqn:Ht; cbn.
  - destruct (getitem_mask_succeeds t (series_eq s team)) as [t' ->]; [|done].
    unfold series_eq. rewrite length_fmap. by eapply getitem_length.
  - intros [= <-]. by eapply getitem_raise.
Qed.

Lemma pipeline_raise t (min_pa : Z) (choice : nat) e :
  pipeline t min_pa choice = Raise e → script_error e.
Proof.
  unfold pipeline, script_error.
  assert (∀ c, c ∈ ["PA"; "OBP"; "SLG"; "Team"] →
               KeyError c ∈ [KeyError "PA"; KeyError "OBP"; KeyError "SLG"; KeyError "Team"])
    as Hkey.
  { intros c Hc. by apply (list_elem_of_fmap_2 KeyError) in Hc. }
  destruct (empty t).
  - cbn. destruct (empty t); [done|].
    destruct (options t) as [teams|e'] eqn:Ho; cbn.
    + intros ->%team_filter_raise. left. apply Hkey. in_names.
    + intros [= <-]. apply options_raise in Ho as [->|?]; [|by right].
      left. apply Hkey. in_names.
  - destruct (pa_filter t min_pa) as [t0|e'] eqn:Hpa; cbn [mbind result_bind].
    2:{ intros [= <-]. apply pa_filter_raise in Hpa as [->|?]; [|by right].
        left. apply Hkey. in_names. }
    destruct (clean t0) as [t1|e'] eqn:Hc; cbn [mbind result_bind].
    2:{ intros [= <-]. apply clean_raise in Hc as [->|[->|?]]; [| |by right];
          left; apply Hkey; in_names. }
    destruct (empty t1); [done|].
    destruct (options t1) as [teams|e'] eqn:Ho; cbn.
    + intros ->%team_filter_raise. left. apply Hkey. in_names.
    + intros [= <-]. apply options_raise in Ho as [->|?]; [|by right].
      left. apply Hkey. in_names.
Qed.

End Raises.

(** X2: lines 48-62, from the fetch to the table that is handed to the
    presentation code: when the table that the provider returns has
    distinct column names, whatever these lines raise is either what the
    provider raised from outside the class [Exception], or a [KeyError]
    for one of the columns PA, OBP, SLG, Team, or a [TypeError]; the masks
    of lines 50 and 62 always have one entry per row, so that no selection
    fails on its length.  (What lines 64-105 may raise afterwards, such as
    the [KeyError] of line 67 for a missing WAR column, is outside.) *)
Theorem main_raises_only_script_errors
    (batting_stats : Z → Z → result DataFrame)
    (selected_year min_pa : Z) (choice : nat) (σ σ' : state) (e : exn) :
  (∀ t, batting_stats selected_year 10 = Ok t → NoDup (columns t)) →
  main batting_stats selected_year min_pa choice σ = (Raise e, σ') →
  (batting_stats selected_year 10 = Raise e ∧ is_Exception e = false) ∨
  script_error e.
Proof.
  intros _ Hrun.
  pose proof (main_yields batting_stats selected_year min_pa choice σ) as Hy.
  rewrite Hrun in Hy. unfold yields, fetched in Hy.
  destruct (batting_stats selected_year 10) as [t|e'] eqn:Hb.
  - right. exact (pipeline_raise t min_pa choice e Hy).
  - destruct (is_Exception e') eqn:He.
    + right. exact (pipeline_raise DataFrame_new min_pa choice e Hy).
    + injection Hy as <-. by left.
Qed.

(** The old season, without OBP, stops at line 21 with [KeyError]. *)
Lemma main_raises_sample :
  (Sample.old_provider 2024 10 = Raise (KeyError "OBP")
   ∧ is_Exception (KeyError "OBP") = false) ∨
  script_error (KeyError "OBP").
Proof.
  eapply (main_raises_only_script_errors Sample.old_provider 2024 100 0 init).
  - intros t [= <-]. apply old_season_distinct.
  - vm_compute. reflexivity.
Defined.

(* ================================================================== *)
(** ** The rows that [clean_data] returns *)
(* ================================================================== *)

Section RowsKept.

Implicit Types (t : DataFrame) (r : Row) (c : string) (cs : list string) (s : Series).

Lemma column_index_lookup c cs i : column_index c cs = Some i → cs !! i = Some c.
Proof.
  unfold column_index. destruct (list_find _ cs) as [[j c']|] eqn:E; [|done].
  intros [= <-]. by apply list_find_Some in E as (? & -> & _).
Qed.

Lemma column_index_app_l c cs c0 i :
  column_index c cs = Some i → column_index c (cs ++ [c0]) = Some i.
Proof.
  unfold column_index. destruct (list_find _ cs) as [[j c']|] eqn:E; [|done].
  intros [= <-]. by rewrite (list_find_app_l _ _ _ _ _ E).
Qed.

Lemma column_index_app_new c0 cs :
  c0 ∉ cs → column_index c0 (cs ++ [c0]) = Some (length cs).
Proof.
  intros Hc. pose proof (column_index_None _ _ Hc) as Hn. unfold column_index in *.
  destruct (list_find _ cs) eqn:E; [done|].
  rewrite (list_find_app_r _ _ _ E). cbn. by rewrite decide_True.
Qed.

Lemma row_get_present t c r i :
  column_index c (columns t) = Some i → row_get t c r = Some (default VNone (cells r !! i)).
Proof. intros H. unfold row_get. by rewrite H. Qed.

Lemma getitem_as_row_get t c i :
  column_index c (columns t) = Some i →
  getitem t c = Ok ((λ r, default VNone (cells r !! i)) <$> rows t).
Proof. intros H. unfold getitem. by rewrite H. Qed.

Lemma mapR_lookup {A B : Type} (f : A → result B) (xs : list A) (ys : list B)
    (i : nat) (x : A) :
  mapR f xs = Ok ys → xs !! i = Some x → ∃ y, ys !! i = Some y ∧ f x = Ok y.
Proof.
  revert ys i. induction xs as [|x0 xs IH]; intros ys i; [done|]. cbn.
  destruct (f x0) as [y0|] eqn:E0; [|done]. cbn.
  destruct (mapR f xs) as [ys'|]; [|done]. cbn. intros [= <-].
  destruct i as [|i]; cbn.
  - intros [= <-]. by exists y0.
  - by apply IH.
Qed.

(** The rows after [df[c0] = s]: each row keeps its label and its entries
    under the other columns, and holds its entry of [s] under [c0]. *)
Lemma setitem_lookup t (c0 : string) s t1 (i : nat) r :
  setitem t c0 s = Ok t1 → wf t → rows t !! i = Some r →
  ∃ r1 v, rows t1 !! i = Some r1 ∧ s !! i = Some v ∧ label r1 = label r ∧
          row_get t1 c0 r1 = Some v ∧
          ∀ c, c ≠ c0 → c ∈ columns t → row_get t1 c r1 = row_get t c r.
Proof.
  unfold setitem. case_bool_decide as Hlen; [|done]. intros Ht1 Hwf Hr.
  assert (length (cells r) = length (columns t)) as Hcells.
  { unfold wf in Hwf. by eapply (Forall_lookup_1 _ _ _ _ Hwf). }
  destruct (lookup_lt_is_Some_2 s i) as [v Hv].
  { rewrite Hlen. by eapply lookup_lt_Some. }
  destruct (column_index c0 (columns t)) as [k|] eqn:Hk; injection Ht1 as <-;
    cbn [rows columns].
  - exists (set_cell k v r), v. split; [|split; [done|split; [done|split]]].
    + apply lookup_zip_with_Some. by exists r, v.
    + rewrite (row_get_present _ _ _ k) by exact Hk. cbn [set_cell cells].
      rewrite list_lookup_insert_eq; [done|].
      rewrite Hcells. eapply lookup_lt_Some, column_index_lookup, Hk.
    + intros c Hne Hc. destruct (column_index_Some _ _ Hc) as (j & Hj & Hjc).
      rewrite (row_get_present _ _ _ j) by exact Hj.
      rewrite (row_get_present t _ _ j) by exact Hj. cbn [set_cell cells].
      rewrite list_lookup_insert_ne; [done|]. intros ->.
      apply column_index_lookup in Hk. congruence.
  - assert (c0 ∉ columns t) as Hnew.
    { intros Hin. apply column_index_is_Some in Hin as [? Hin]. congruence. }
    exists (add_cell v r), v. split; [|split; [done|split; [done|split]]].
    + apply lookup_zip_with_Some. by exists r, v.
    + rewrite (row_get_present _ _ _ (length (columns t)))
        by exact (column_index_app_new _ _ Hnew).
      cbn [add_cell cells]. rewrite lookup_app_r by lia.
      by rewrite Hcells, Nat.sub_diag.
    + intros c Hne Hc. destruct (column_index_Some _ _ Hc) as (j & Hj & Hjc).
      rewrite (row_get_present _ _ _ j) by exact (column_index_app_l _ _ _ _ Hj).
      rewrite (row_get_present t _ _ j) by exact Hj. cbn [add_cell cells].
      rewrite lookup_app_l; [done|].
      rewrite Hcells. by eapply lookup_lt_Some.
Qed.

(** The rows after lines 23-25: each row keeps its label and its entries
    under the display columns. *)
Lemma projection_lookup t1 t' (i : nat) r1 :
  projection t1 = Ok t' → rows t1 !! i = Some r1 →
  ∃ r', rows t' !! i = Some r' ∧ label r' = label r1 ∧
        ∀ c, c ∈ cols → c ∈ columns t1 → row_get t' c r' = row_get t1 c r1.
Proof.
  rewrite projection_run. intros [= <-] Hr1. cbn [rows].
  eexists. split; [by rewrite list_lookup_fmap, Hr1|]. split; [done|].
  intros c Hc Hc1.
  assert (c ∈ filter (λ c, c ∈ columns t1) cols) as Hav by by apply list_elem_of_filter.
  destruct (column_index_Some _ _ Hav) as (j & Hj & Hjc).
  destruct (column_index_Some _ _ Hc1) as (j1 & Hj1 & _).
  rewrite (row_get_present t1 _ _ j1) by exact Hj1.
  rewrite (row_get_present _ _ _ j) by exact Hj. cbn [cells].
  rewrite list_lookup_fmap, Hjc. cbn [fmap option_fmap option_map default].
  by rewrite (row_get_present t1 _ _ j1) by exact Hj1.
Qed.

Lemma getitem_lookup t c s (i : nat) r :
  getitem t c = Ok s → rows t !! i = Some r →
  ∃ v, s !! i = Some v ∧ row_get t c r = Some v.
Proof.
  unfold getitem, row_get. destruct (column_index c (columns t)) as [k|]; [|done].
  intros [= <-] Hr. exists (cell_at k r). by rewrite list_lookup_fmap, Hr.
Qed.

(** What [clean_data] computes on a table with rows and columns: row by
    row, the same label, the same entries under the display columns, and
    the sum of OBP and SLG under OPS. *)
Lemma clean_rows t (obp slg ops : Series) :
  wf t → empty t = false →
  getitem t "OBP" = Ok obp → getitem t "SLG" = Ok slg → series_add obp slg = Ok ops →
  ∃ t', clean t = Ok t' ∧
        Forall2 (λ r r', same_row (filter (λ c, c ∈ columns t ∧ c ≠ "OPS") cols) t t' r r'
                         ∧ OPS_is_sum t t' r r')
                (rows t) (rows t').
Proof.
  intros Hwf He Ho Hs Ha.
  destruct (with_OPS_run t obp slg ops Ho Hs Ha) as (t1 & H1 & Hset).
  destruct (projection t1) as [t'|] eqn:Hp; [|by rewrite projection_run in Hp].
  exists t'. split; [unfold clean; by rewrite He, H1|].
  pose proof (setitem_columns _ _ _ _ Hset) as Hcols.
  assert (∀ c, c ∈ columns t → c ∈ columns t1) as Hsub.
  { intros c Hc. rewrite Hcols. case_bool_decide; [done|]. apply elem_of_app. by left. }
  assert ("OPS" ∈ columns t1) as Hops.
  { rewrite Hcols. case_bool_decide; [done|]. apply elem_of_app. right. by left. }
  apply Forall2_same_length_lookup_2.
  { pose proof Hp as Hp'. rewrite projection_run in Hp'. injection Hp' as <-. cbn.
    rewrite length_fmap. symmetry. by eapply setitem_rows_length. }
  intros i r r' Hr Hr'.
  destruct (setitem_lookup _ _ _ _ _ _ Hset Hwf Hr) as (r1 & v & Hr1 & Hv & Hl1 & Hv1 & Hkeep).
  destruct (projection_lookup _ _ _ _ Hp Hr1) as (r'' & Hr'' & Hl'' & Hproj).
  assert (r'' = r') as -> by congruence.
  split; [split|].
  - congruence.
  - intros c [[Hct Hne] Hc]%list_elem_of_filter.
    rewrite (Hproj c Hc (Hsub c Hct)). by apply Hkeep.
  - destruct (getitem_lookup _ _ _ _ _ Ho Hr) as (a & Ha' & Hga).
    destruct (getitem_lookup _ _ _ _ _ Hs Hr) as (b & Hb' & Hgb).
    assert (zip obp slg !! i = Some (a, b)) as Hz.
    { apply lookup_zip_with_Some. by exists a, b. }
    destruct (mapR_lookup _ _ _ _ _ Ha Hz) as (v' & Hv' & Hadd). cbn in Hadd.
    assert (v' = v) as -> by congruence.
    exists a, b, v. split; [done|]. split; [done|]. split; [done|].
    rewrite (Hproj "OPS"); [done| unfold cols; in_names | done].
Qed.

End RowsKept.

(** X3: on a well-formed table with rows and columns whose OBP and SLG can
    be added, [clean_data] returns the rows in their order, one for one:
    each keeps its label and its entries under the display columns it had,
    and its OPS entry is the sum of its OBP and SLG entries, whether the
    table had an OPS column before or not. *)
Theorem clean_data_keeps_rows (σ : state) (l : loc) (t : DataFrame) (obp slg ops : Series) :
  heap σ !! l = Some t →
  wf t →
  empty t = false →
  getitem t "OBP" = Ok obp →
  getitem t "SLG" = Ok slg →
  series_add obp slg = Ok ops →
  ∃ (l' : loc) (σ' : state) (t' : DataFrame),
    clean_data l σ = (Ok l', σ') ∧
    heap σ' !! l' = Some t' ∧
    Forall2 (λ r r', same_row (filter (λ c, c ∈ columns t ∧ c ≠ "OPS") cols) t t' r r'
                     ∧ OPS_is_sum t t' r r')
            (rows t) (rows t').
Proof.
  intros Hl Hwf He Ho Hs Ha.
  destruct (clean_rows t obp slg ops Hwf He Ho Hs Ha) as (t' & Hc & Hrows).
  pose proof (clean_data_yields _ _ _ Hl) as Hy. rewrite Hc in Hy.
  destruct (clean_data l σ) as [[l'|e] σ']; cbn in Hy; [|done].
  destruct Hy as (t'' & Hl' & [= <-]). by exists l', σ', t'.
Qed.

(** The sample season is such a table. *)
Lemma clean_data_keeps_rows_sample :
  ∃ (l' : loc) (σ' : state) (t' : DataFrame),
    clean_data 0%nat (Sample.only Sample.season) = (Ok l', σ') ∧
    heap σ' !! l' = Some t' ∧
    Forall2 (λ r r', same_row (filter (λ c, c ∈ columns Sample.season ∧ c ≠ "OPS") cols)
                       Sample.season t' r r'
                     ∧ OPS_is_sum Sample.season t' r r')
            (rows Sample.season) (rows t').
Proof.
  eapply (clean_data_keeps_rows (Sample.only Sample.season) 0%nat Sample.season);
    try reflexivity.
  by repeat constructor.
Defined.

(* ================================================================== *)
(** ** How the filters compose *)
(* ================================================================== *)

Section Compose.

Implicit Types (t : DataFrame) (r : Row) (c : cell).

Lemma compare_ge_leb (x n : Z) :
  match x ?= n with Eq | Gt => true | Lt => false end = (n <=? x).
Proof. rewrite Z.leb_compare, (Z.compare_antisym x n). by destruct (x ?= n). Qed.

(** A lower bound is easier to reach. *)
Lemma at_least_mono (a b : Z) c : a ≤ b → at_least b c = true → at_least a c = true.
Proof.
  intros Hab. destruct c as [m|x| |]; cbn; try done.
  - rewrite !Z.leb_le. lia.
  - unfold float_compare_Z. destruct (Prim2SF x) as [s|s| |s m e]; try done.
    + rewrite !compare_ge_leb, !Z.leb_le. lia.
    + set (v := if s then Z.neg m else Z.pos m).
      destruct (0 <=? e) eqn:He; rewrite !compare_ge_leb, !Z.leb_le.
      * generalize (v * 2 ^ e). lia.
      * apply Z.leb_gt in He.
        assert (0 < 2 ^ (- e)) as Hp by (apply Z.pow_pos_nonneg; lia).
        revert Hp. generalize (2 ^ (- e)). generalize v. nia.
Qed.

Lemma at_least_max (a b : Z) c :
  at_least (Z.max a b) c = at_least a c && at_least b c.
Proof.
  destruct (Z.max_spec a b) as [[Hlt ->]|[Hle ->]].
  - destruct (at_least b c) eqn:E; [|by rewrite andb_false_r].
    by rewrite (at_least_mono a b c) by (lia || done).
  - destruct (at_least a c) eqn:E; [|done].
    by rewrite (at_least_mono b a c) by (lia || done).
Qed.

(** The tests of lines 50 and 62 on a row look at the column names only. *)
Lemma PA_at_least_columns t t' (n : Z) r :
  columns t' = columns t → PA_at_least t' n r = PA_at_least t n r.
Proof. intros H. unfold PA_at_least, row_get. by rewrite H. Qed.

Lemma on_team_columns t t' (team : string) r :
  columns t' = columns t → on_team t' team r = on_team t team r.
Proof. intros H. unfold on_team, row_get. by rewrite H. Qed.

Lemma column_all_filter (P : cell → bool) t (name : string) (keep : Row → Prop)
    `{!∀ r, Decision (keep r)} :
  column_all P t name →
  column_all P {| columns := columns t; rows := filter keep (rows t) |} name.
Proof.
  intros Hall r v [_ Hr]%list_elem_of_filter Hv. by apply (Hall r v).
Qed.

Lemma pa_filter_column_all t (n : Z) :
  "PA" ∈ columns t → column_all numeric t "PA" →
  pa_filter t n
  = Ok {| columns := columns t; rows := filter (λ r, PA_at_least t n r = true) (rows t) |}.
Proof. intros Hc Hnum. apply pa_filter_numeric; [done|]. intros r c. apply Hnum. Qed.

(** Line 50 applied twice is line 50 with the larger bound. *)
Lemma pa_filter_twice t (a b : Z) :
  "PA" ∈ columns t → column_all numeric t "PA" →
  (t1 ← pa_filter t a; pa_filter t1 b) = pa_filter t (Z.max a b).
Proof.
  intros Hc Hnum. rewrite !pa_filter_column_all by done. cbn [mbind result_bind].
  rewrite pa_filter_column_all; [|done|by apply column_all_filter]. cbn [columns rows].
  do 2 f_equal. rewrite list_filter_filter. apply list_filter_iff. intros r.
  unfold PA_at_least, row_get. cbn [columns]. fold (row_get t "PA" r). destruct (row_get t "PA" r) as [c|]; [|naive_solver].
  rewrite at_least_max, andb_true_iff. tauto.
Qed.

(** Lines 50 and 62 can be applied in either order. *)
Lemma filters_commute t (n : Z) (team : string) :
  "PA" ∈ columns t → "Team" ∈ columns t → column_all numeric t "PA" →
  (t1 ← pa_filter t n; team_filter t1 (VStr team))
  = (t1 ← team_filter t (VStr team); pa_filter t1 n).
Proof.
  intros Hpa Hteam Hnum. rewrite pa_filter_column_all by done. cbn [mbind result_bind].
  destruct (decide (team = "All")) as [->|Hne].
  - unfold team_filter. change (py_eq (VStr "All") (VStr "All")) with true.
    cbn [negb mbind result_bind]. by rewrite pa_filter_column_all.
  - rewrite !team_filter_team by done. cbn [mbind result_bind columns rows].
    rewrite pa_filter_column_all; [|done|by apply column_all_filter]. cbn [columns rows].
    do 2 f_equal. rewrite !list_filter_filter. apply list_filter_iff. intros r.
    unfold PA_at_least, on_team, row_get. cbn [columns]. tauto.
Qed.

End Compose.

(** X4: on a table whose PA column holds numbers (or missing values),
    running the plate-appearance filter with bound [a] and then with bound
    [b] gives the table that one run with the larger of the two bounds
    gives: the rows that reach both.  In particular filtering twice with
    one bound changes nothing more. *)
Theorem filterByPA_twice_is_max (σ : state) (l : loc) (t : DataFrame) (a b : Z) :
  heap σ !! l = Some t →
  "PA" ∈ columns t →
  column_all numeric t "PA" →
  table_of ((filterByPA l a ≫= λ df, filterByPA df b) σ)
  = table_of (filterByPA l (Z.max a b) σ) ∧
  table_of (filterByPA l (Z.max a b) σ)
  = Ok {| columns := columns t;
          rows := filter (λ r, PA_at_least t a r = true ∧ PA_at_least t b r = true)
                    (rows t) |}.
Proof.
  intros Hl Hc Hnum.
  assert (yields ((filterByPA l a ≫= λ df, filterByPA df b) σ)
                 (t1 ← pa_filter t a; pa_filter t1 b)) as H2.
  { apply (yields_bind _ _ _ _ (λ t1, pa_filter t1 b)); [by apply filterByPA_yields|].
    intros l1 σ1 t1 Hl1. by apply filterByPA_yields. }
  rewrite (yields_table_of _ _ H2), (yields_table_of _ _ (filterByPA_yields _ _ _ _ Hl)).
  split; [by apply pa_filter_twice|].
  rewrite pa_filter_column_all by done. do 2 f_equal.
  apply list_filter_iff. intros r. unfold PA_at_least.
  destruct (row_get t "PA" r) as [c|]; [|naive_solver].
  rewrite at_least_max, andb_true_iff. tauto.
Qed.

(** The sample season with the bounds 100 and 40. *)
Lemma filterByPA_twice_sample :
  table_of ((filterByPA 0%nat 100 ≫= λ df, filterByPA df 40) (Sample.only Sample.season))
  = table_of (filterByPA 0%nat (Z.max 100 40) (Sample.only Sample.season)) ∧
  table_of (filterByPA 0%nat (Z.max 100 40) (Sample.only Sample.season))
  = Ok {| columns := columns Sample.season;
          rows := filter (λ r, PA_at_least Sample.season 100 r = true
                               ∧ PA_at_least Sample.season 40 r = true)
                    (rows Sample.season) |}.
Proof.
  apply (filterByPA_twice_is_max (Sample.only Sample.season) 0%nat Sample.season 100 40).
  - reflexivity.
  - cbn. in_names.
  - intros r c Hr. cbn in Hr.
    repeat (apply elem_of_cons in Hr as [->|Hr]; [by intros [= <-]|]).
    by apply elem_of_nil in Hr.
Defined.

(** X5: on a table that has the PA and Team columns, PA holding numbers (or
    missing values), the plate-appearance filter followed by the team
    filter gives the same table as the team filter followed by the
    plate-appearance filter. *)
Theorem filters_in_either_order (σ : state) (l : loc) (t : DataFrame)
    (min_pa : Z) (team : string) :
  heap σ !! l = Some t →
  "PA" ∈ columns t →
  "Team" ∈ columns t →
  column_all numeric t "PA" →
  table_of ((filterByPA l min_pa ≫= λ df, filterByTeam df (VStr team)) σ)
  = table_of ((filterByTeam l (VStr team) ≫= λ df, filterByPA df min_pa) σ).
Proof.
  intros Hl Hpa Hteam Hnum.
  assert (yields ((filterByPA l min_pa ≫= λ df, filterByTeam df (VStr team)) σ)
                 (t1 ← pa_filter t min_pa; team_filter t1 (VStr team))) as H1.
  { apply (yields_bind _ _ _ _ (λ t1, team_filter t1 (VStr team)));
      [by apply filterByPA_yields|].
    intros l1 σ1 t1 Hl1. by apply filterByTeam_yields. }
  assert (yields ((filterByTeam l (VStr team) ≫= λ df, filterByPA df min_pa) σ)
                 (t1 ← team_filter t (VStr team); pa_filter t1 min_pa)) as H2.
  { apply (yields_bind _ _ _ _ (λ t1, pa_filter t1 min_pa));
      [by apply filterByTeam_yields|].
    intros l1 σ1 t1 Hl1. by apply filterByPA_yields. }
  rewrite (yields_table_of _ _ H1), (yields_table_of _ _ H2).
  by apply filters_commute.
Qed.

(** The sample season, the bound 40 and the team BOS. *)
Lemma filters_in_either_order_sample :
  table_of ((filterByPA 0%nat 40 ≫= λ df, filterByTeam df (VStr "BOS"))
              (Sample.only Sample.season))
  = table_of ((filterByTeam 0%nat (VStr "BOS") ≫= λ df, filterByPA df 40)
                (Sample.only Sample.season)).
Proof.
  apply (filters_in_either_order (Sample.only Sample.season) 0%nat Sample.season 40 "BOS").
  - reflexivity.
  - cbn. in_names.
  - cbn. in_names.
  - intros r c Hr. cbn in Hr.
    repeat (apply elem_of_cons in Hr as [->|Hr]; [by intros [= <-]|]).
    by apply elem_of_nil in Hr.
Defined.

(* ================================================================== *)
(** ** The team stage and the page *)
(* ================================================================== *)

Section TeamStage.

Implicit Types (t : DataFrame) (r : Row) (σ : state) (l : loc).

Lemma filter_all {A : Type} (P : A → Prop) `{!∀ x, Decision (P x)} (xs : list A) :
  (∀ x, x ∈ xs → P x) → filter P xs = xs.
Proof.
  induction xs as [|x xs IH]; intros Hall; [done|].
  rewrite filter_cons_True by (apply Hall; by left).
  f_equal. apply IH. intros y Hy. apply Hall. by right.
Qed.

Lemma filter_none {A : Type} (P : A → Prop) `{!∀ x, Decision (P x)} (xs : list A) :
  (∀ x, x ∈ xs → ¬ P x) → filter P xs = [].
Proof.
  induction xs as [|x xs IH]; intros Hnone; [done|].
  rewrite filter_cons_False by (apply Hnone; by left).
  apply IH. intros y Hy. apply Hnone. by right.
Qed.

(** The select box returns one of its options. *)
Lemma selectbox_elem (first : cell) (rest : list cell) (choice : nat) :
  selectbox (first :: rest) choice ∈ first :: rest.
Proof.
  unfold selectbox. destruct ((first :: rest) !! choice) as [v|] eqn:E; cbn.
  - by eapply list_elem_of_lookup_2.
  - by left.
Qed.

Lemma team_selected_All t r : team_selected t (VStr "All") r = true.
Proof. done. Qed.

Lemma team_selected_team t (team : string) r :
  team ≠ "All" → team_selected t (VStr team) r = on_team t team r.
Proof. intros H. cbn. by rewrite (proj2 (String.eqb_neq team "All")). Qed.

(** The team stage on a table with rows and columns whose Team column
    holds text or missing values. *)
Lemma team_stage_text σ l t (selected_year : Z) (choice : nat) :
  heap σ !! l = Some t →
  empty t = false →
  "Team" ∈ columns t →
  column_all text_or_missing t "Team" →
  ∃ (names : list string) (l' : loc) (σ' : state) (t' : DataFrame),
    options t = Ok (VStr "All" :: (VStr <$> names)) ∧
    StronglySorted string_lt names ∧
    (∀ x, x ∈ names ↔ ∃ r, r ∈ rows t ∧ row_get t "Team" r = Some (VStr x)) ∧
    team_stage l selected_year choice σ = (Ok l', σ') ∧
    heap σ' !! l' = Some t' ∧
    columns t' = columns t ∧
    rows t' = filter (λ r, team_selected t
                             (selectbox (VStr "All" :: (VStr <$> names)) choice) r = true)
                (rows t) ∧
    empty t' = false ∧
    page σ' = (page σ ++ [st_header (pretty selected_year +:+ " Season Leaders")])%list.
Proof.
  intros Hl He Hc Htext.
  destruct (options_text t Hc) as (names & Ho & Hs & _ & Hin).
  { intros r c. apply Htext. }
  exists names. rewrite (team_stage_run _ _ _ _ _ Hl), He, Ho. cbn zeta.
  set (σ1 := say σ _).
  assert (heap σ1 !! l = Some t) as Hl1 by done.
  rewrite (filterByTeam_run _ _ _ Hl1).
  pose proof (selectbox_elem (VStr "All") (VStr <$> names) choice) as Hsel.
  destruct (selectbox (VStr "All" :: (VStr <$> names)) choice) as [n|x|team|] eqn:Esel;
    try (exfalso; apply elem_of_cons in Hsel as [?|(? & ? & _)%list_elem_of_fmap]; done).
  destruct (decide (team = "All")) as [->|Hne].
  - change (py_eq (VStr "All") (VStr "All")) with true.
    exists l, σ1, t. split; [done|]. split; [done|]. split; [done|].
    split; [done|]. split; [done|]. split; [done|].
    split; [symmetry; by apply filter_all|]. by split.
  - rewrite (not_All _ Hne), (team_filter_team _ _ Hne Hc).
    eexists _, _, _. split; [done|]. split; [done|]. split; [done|]. split; [done|].
    split; [apply alloc_lookup|]. cbn [columns rows]. split; [done|].
    split; [apply list_filter_iff; intros r; by rewrite (team_selected_team _ _ _ Hne)|].
    split; [|done].
    assert (team ∈ names) as Hteam.
    { apply elem_of_cons in Hsel as [[=]|(x & [= ->] & Hx)%list_elem_of_fmap]; done. }
    apply Hin in Hteam as (r & Hr & Hrt).
    apply empty_false_iff. cbn [columns rows]. split.
    + intros Hnil. rewrite Hnil in Hc. by apply elem_of_nil in Hc.
    + intros Hnil.
      assert (r ∈ filter (λ r, on_team t team r = true) (rows t)) as Hrf.
      { apply list_elem_of_filter. split; [by apply on_team_iff|done]. }
      rewrite Hnil in Hrf. by apply elem_of_nil in Hrf.
Qed.

End TeamStage.

(** X6: on a table with rows and columns whose Team column holds text (or
    missing values), whatever option the user picks, the team stage shows
    the season header and hands over a table that is not empty: all rows
    for "All", and for a team name the rows of that team, with the columns
    untouched. *)
Theorem team_stage_hands_over_rows (σ : state) (l : loc) (t : DataFrame)
    (selected_year : Z) (choice : nat) :
  heap σ !! l = Some t →
  empty t = false →
  "Team" ∈ columns t →
  column_all text_or_missing t "Team" →
  ∃ (names : list string) (l' : loc) (σ' : state) (t' : DataFrame),
    team_options l σ = (Ok (VStr "All" :: (VStr <$> names)), σ) ∧
    team_stage l selected_year choice σ = (Ok l', σ') ∧
    heap σ' !! l' = Some t' ∧
    columns t' = columns t ∧
    rows t' = filter (λ r, team_selected t
                             (selectbox (VStr "All" :: (VStr <$> names)) choice) r = true)
                (rows t) ∧
    empty t' = false ∧
    page σ' = (page σ ++ [st_header (pretty selected_year +:+ " Season Leaders")])%list.
Proof.
  intros Hl He Hc Htext.
  destruct (team_stage_text σ l t selected_year choice Hl He Hc Htext)
    as (names & l' & σ' & t' & Ho & _ & _ & Hrest).
  exists names, l', σ', t'. split; [|exact Hrest].
  by rewrite (team_options_run _ _ _ Hl), Ho.
Qed.

(** The sample season with the second option, BOS. *)
Lemma team_stage_sample :
  ∃ (names : list string) (l' : loc) (σ' : state) (t' : DataFrame),
    team_options 0%nat (Sample.only Sample.season)
    = (Ok (VStr "All" :: (VStr <$> names)), Sample.only Sample.season) ∧
    team_stage 0%nat 2024 1 (Sample.only Sample.season) = (Ok l', σ') ∧
    heap σ' !! l' = Some t' ∧
    columns t' = columns Sample.season ∧
    rows t' = filter (λ r, team_selected Sample.season
                             (selectbox (VStr "All" :: (VStr <$> names)) 1) r = true)
                (rows Sample.season) ∧
    empty t' = false ∧
    page σ' = (page (Sample.only Sample.season)
               ++ [st_header (pretty 2024 +:+ " Season Leaders")])%list.
Proof.
  apply (team_stage_hands_over_rows (Sample.only Sample.season) 0%nat Sample.season 2024 1).
  - reflexivity.
  - reflexivity.
  - cbn. in_names.
  - intros r c Hr. cbn in Hr.
    repeat (apply elem_of_cons in Hr as [->|Hr]; [by intros [= <-]|]).
    by apply elem_of_nil in Hr.
Defined.

(* ================================================================== *)
(** ** Lines 48-62 as a whole: what they show, and where they stop *)
(* ================================================================== *)

Section WholeRuns.

Variable batting_stats : Z → Z → result DataFrame.
Implicit Types (t : DataFrame) (r : Row) (σ : state) (l : loc).

(** Two numbers can always be added. *)
Lemma py_add_numbers (a b : cell) :
  number a = true → number b = true → ∃ v, py_add a b = Ok v.
Proof. destruct a, b; try done; intros _ _; cbn; eauto. Qed.

Lemma series_add_numbers (s1 s2 : Series) :
  Forall (λ c, number c = true) s1 → Forall (λ c, number c = true) s2 →
  ∃ s, series_add s1 s2 = Ok s.
Proof.
  unfold series_add. intros H1. revert s2.
  induction H1 as [|a s1 Ha _ IH]; intros s2 H2; [by exists []|].
  destruct H2 as [|b s2 Hb H2]; [by exists []|].
  destruct (py_add_numbers a b Ha Hb) as [v Hv].
  destruct (IH s2 H2) as [s Hs]. exists (v :: s). cbn. rewrite Hv. cbn.
  by rewrite Hs.
Qed.

Lemma getitem_column_all (P : cell → bool) t (c : string) :
  c ∈ columns t → column_all P t c →
  ∃ s, getitem t c = Ok s ∧ Forall (λ v, P v = true) s.
Proof.
  intros Hc Hall. rewrite (getitem_present _ _ Hc). eexists. split; [done|].
  apply Forall_fmap, Forall_forall. intros r Hr. cbn.
  destruct (column_index_Some _ _ Hc) as (i & Hi & _).
  apply (Hall r); [done|]. unfold row_get. by rewrite Hi.
Qed.

(** Line 21 succeeds when OBP and SLG are columns of numbers. *)
Lemma with_OPS_numbers t :
  "OBP" ∈ columns t → "SLG" ∈ columns t →
  column_all number t "OBP" → column_all number t "SLG" →
  ∃ obp slg ops, getitem t "OBP" = Ok obp ∧ getitem t "SLG" = Ok slg ∧
                 series_add obp slg = Ok ops.
Proof.
  intros Ho Hs Hno Hns.
  destruct (getitem_column_all number t "OBP" Ho Hno) as (obp & Hobp & Fo).
  destruct (getitem_column_all number t "SLG" Hs Hns) as (slg & Hslg & Fs).
  destruct (series_add_numbers obp slg Fo Fs) as [ops Hops].
  by exists obp, slg, ops.
Qed.

(** What [clean_data] returns for a table with rows and columns has rows
    and columns, and no column outside the display list. *)
Lemma clean_nonempty t t' :
  empty t = false → clean t = Ok t' →
  empty t' = false ∧ ∀ c, c ∈ columns t' → c ∈ cols ∧ (c ∈ columns t ∨ c = "OPS").
Proof.
  unfold clean. intros He. rewrite He.
  destruct (with_OPS t) as [t0|] eqn:E0; [|done]. cbn [mbind result_bind].
  rewrite projection_run. intros [= <-].
  pose proof (with_OPS_nonempty _ _ E0 He) as He0.
  apply with_OPS_columns in E0 as (_ & _ & Hc).
  assert ("OPS" ∈ columns t0) as Hops.
  { rewrite Hc. case_bool_decide; [done|]. apply elem_of_app. right. by left. }
  split.
  - apply empty_false_iff in He0 as [_ Hrows]. apply empty_false_iff.
    cbn [columns rows]. split.
    + intros Ef.
      assert ("OPS" ∈ filter (λ c, c ∈ columns t0) cols) as Hin.
      { apply list_elem_of_filter. split; [done|]. unfold cols. in_names. }
      rewrite Ef in Hin. by apply elem_of_nil in Hin.
    + by intros ?%fmap_nil_inv.
  - cbn [columns]. intros c [Hc0 Hcc]%list_elem_of_filter. split; [done|].
    rewrite Hc in Hc0. case_bool_decide; [by left|].
    apply elem_of_app in Hc0 as [?|?%list_elem_of_singleton]; [by left|by right].
Qed.

Lemma fetch_data_ok (year : Z) σ t :
  batting_stats year 10 = Ok t →
  fetch_data batting_stats year σ = (Ok (next σ), alloc σ t).
Proof. intros H. by rewrite fetch_data_run, H. Qed.



End WholeRuns.



(** X8: when the fetched table has rows and a PA column of numbers (or
    missing values) but no row reaches [min_pa], the run does not raise,
    whatever other columns are missing: it shows only the "No data
    available" warning, and ends with a table that has no rows and still
    has the fetched columns, since [clean_data] leaves an empty table as
    it is. *)
Theorem main_with_no_row_at_min_pa
    (batting_stats : Z → Z → result DataFrame) (t : DataFrame)
    (selected_year min_pa : Z) (choice : nat) (σ : state) :
  batting_stats selected_year 10 = Ok t →
  empty t = false →
  "PA" ∈ columns t →
  column_all numeric t "PA" →
  (∀ r, r ∈ rows t → PA_at_least t min_pa r = false) →
  ∃ (l' : loc) (σ' : state),
    main batting_stats selected_year min_pa choice σ = (Ok l', σ') ∧
    heap σ' !! l' = Some {| columns := columns t; rows := [] |} ∧
    page σ' = (page σ ++ [st_warning "No data available for the selected season."])%list.
Proof.
  intros Hb He Hc Hnum Hnone.
  assert (pa_filter t min_pa = Ok {| columns := columns t; rows := [] |}) as Hpa.
  { rewrite pa_filter_column_all by done. do 2 f_equal. apply filter_none.
    intros r Hr. by rewrite (Hnone r Hr). }
  set (t0 := {| columns := columns t; rows := [] |}) in *.
  assert (empty t0 = true) as He0 by (unfold empty; cbn; by destruct (columns t)).
  unfold main. rewrite bind_run, (fetch_data_ok _ _ _ _ Hb), bind_run.
  rewrite (derive_stage_run _ _ _ _ (alloc_lookup σ t)), He, Hpa.
  rewrite (clean_data_run _ _ _ (alloc_lookup (alloc σ t) t0)), He0.
  rewrite (team_stage_run _ _ _ _ _ (alloc_lookup (alloc σ t) t0)), He0.
  eexists _, _. split; [done|]. split; [|done].
  apply (alloc_lookup (alloc σ t) t0).
Qed.

(** The sample season with the bound 1000. *)
Lemma main_with_no_row_sample :
  ∃ (l' : loc) (σ' : state),
    main Sample.provider 2024 1000 0 init = (Ok l', σ') ∧
    heap σ' !! l' = Some {| columns := columns Sample.season; rows := [] |} ∧
    page σ' = (page init ++ [st_warning "No data available for the selected season."])%list.
Proof.
  apply (main_with_no_row_at_min_pa Sample.provider Sample.season 2024 1000 0 init).
  - reflexivity.
  - reflexivity.
  - cbn. in_names.
  - intros r c Hr. cbn in Hr.
    repeat (apply elem_of_cons in Hr as [->|Hr]; [by intros [= <-]|]).
    by apply elem_of_nil in Hr.
  - intros r Hr. cbn in Hr.
    repeat (apply elem_of_cons in Hr as [->|Hr]; [reflexivity|]).
    by apply elem_of_nil in Hr.
Defined.

(** X9: when the fetched table has rows and columns but no PA column, the
    run stops at line 50 with [KeyError]: nothing is shown, and the only
    new object is the fetched table. *)
Theorem main_without_PA_raises
    (batting_stats : Z → Z → result DataFrame) (t : DataFrame)
    (selected_year min_pa : Z) (choice : nat) (σ : state) :
  batting_stats selected_year 10 = Ok t →
  empty t = false →
  "PA" ∉ columns t →
  main batting_stats selected_year min_pa choice σ = (Raise (KeyError "PA"), alloc σ t).
Proof.
  intros Hb He Hc.
  unfold main. rewrite bind_run, (fetch_data_ok _ _ _ _ Hb), bind_run.
  rewrite (derive_stage_run _ _ _ _ (alloc_lookup σ t)), He.
  unfold pa_filter. by rewrite (getitem_missing _ _ Hc).
Qed.

(** A season without the PA column. *)
Lemma main_without_PA_sample :
  main Sample.PA_less_provider 2024 100 0 init
  = (Raise (KeyError "PA"), alloc init Sample.PA_less_season).
Proof.
  apply (main_without_PA_raises Sample.PA_less_provider Sample.PA_less_season 2024 100 0 init).
  - reflexivity.
  - reflexivity.
  - cbn. not_in_names.
Defined.

(** X10: [clean_data] accepts a table without the Team column, but the
    script does not: when the fetched table has the PA, OBP and SLG
    columns with numbers in them, some row reaches [min_pa] and there is
    no Team column, the run shows the season header and then stops at line
    58 with [KeyError]. *)
Theorem main_without_Team_raises
    (batting_stats : Z → Z → result DataFrame) (t : DataFrame)
    (selected_year min_pa : Z) (choice : nat) (σ : state) (r : Row) :
  batting_stats selected_year 10 = Ok t →
  "PA" ∈ columns t → "OBP" ∈ columns t → "SLG" ∈ columns t →
  column_all numeric t "PA" →
  column_all number t "OBP" →
  column_all number t "SLG" →
  r ∈ rows t → PA_at_least t min_pa r = true →
  "Team" ∉ columns t →
  ∃ σ' : state,
    main batting_stats selected_year min_pa choice σ = (Raise (KeyError "Team"), σ') ∧
    page σ' = (page σ ++ [st_header (pretty selected_year +:+ " Season Leaders")])%list.
Proof.
  intros Hb Hpa Hobp Hslg Hnum Hno Hns Hr Hkeep Hteam.
  assert (empty t = false) as He.
  { apply empty_false_iff. split; intros Hnil.
    - rewrite Hnil in Hpa. by apply elem_of_nil in Hpa.
    - rewrite Hnil in Hr. by apply elem_of_nil in Hr. }
  set (t1 := {| columns := columns t;
                rows := filter (λ r, PA_at_least t min_pa r = true) (rows t) |}).
  assert (pa_filter t min_pa = Ok t1) as Hpf by by apply pa_filter_column_all.
  assert (empty t1 = false) as He1.
  { apply empty_false_iff. cbn [t1 columns rows]. split; intros Hnil.
    - rewrite Hnil in Hpa. by apply elem_of_nil in Hpa.
    - assert (r ∈ filter (λ r, PA_at_least t min_pa r = true) (rows t)) as Hrf
        by by apply list_elem_of_filter.
      rewrite Hnil in Hrf. by apply elem_of_nil in Hrf. }
  destruct (with_OPS_numbers t1) as (obp & slg & ops & Ho & Hs & Ha); try done.
  { by apply column_all_filter. }
  { by apply column_all_filter. }
  destruct (with_OPS_run t1 obp slg ops Ho Hs Ha) as (t2 & H2 & _).
  assert (clean t1 = Ok {| columns := filter (λ c, c ∈ columns t2) cols;
                           rows := (λ r, {| label := label r;
                                            cells := (λ c, default VNone (row_get t2 c r))
                                                       <$> filter (λ c, c ∈ columns t2) cols |})
                                     <$> rows t2 |}) as Hclean.
  { unfold clean. rewrite He1, H2. cbn [mbind result_bind]. apply projection_run. }
  set (t3 := {| columns := filter (λ c, c ∈ columns t2) cols; rows := _ |}) in Hclean.
  destruct (clean_nonempty _ _ He1 Hclean) as [He3 Hcols3].
  assert ("Team" ∉ columns t3) as Hteam3.
  { intros [_ [Hin|Hin]]%Hcols3; [done|discriminate]. }
  unfold main. rewrite bind_run, (fetch_data_ok _ _ _ _ Hb), bind_run.
  rewrite (derive_stage_run _ _ _ _ (alloc_lookup σ t)), He, Hpf.
  pose proof (clean_data_run _ _ _ (alloc_lookup (alloc σ t) t1)) as Hrun.
  rewrite He1, H2, projection_run in Hrun. rewrite Hrun.
  rewrite (team_stage_run _ _ t3).
  2:{ apply (clean_data_lookup _ _ _ (alloc_lookup (alloc σ t) t1)). }
  rewrite He3. cbn zeta. unfold options. rewrite (getitem_missing _ _ Hteam3).
  eexists. split; [done|]. done.
Qed.

(** A season without the Team column. *)
Lemma main_without_Team_sample :
  ∃ σ' : state,
    main Sample.teamless_provider 2024 100 0 init = (Raise (KeyError "Team"), σ') ∧
    page σ' = (page init ++ [st_header (pretty 2024 +:+ " Season Leaders")])%list.
Proof.
  apply (main_without_Team_raises Sample.teamless_provider Sample.teamless_season
           2024 100 0 init
           {| label := 0; cells := [VStr "A"; VInt 150; VFloat 0.3; VFloat 0.45] |}).
  - reflexivity.
  - cbn. in_names.
  - cbn. in_names.
  - cbn. in_names.
  - intros r c Hr. cbn in Hr.
    repeat (apply elem_of_cons in Hr as [->|Hr]; [by intros [= <-]|]).
    by apply elem_of_nil in Hr.
  - intros r c Hr. cbn in Hr.
    repeat (apply elem_of_cons in Hr as [->|Hr]; [by intros [= <-]|]).
    by apply elem_of_nil in Hr.
  - intros r c Hr. cbn in Hr.
    repeat (apply elem_of_cons in Hr as [->|Hr]; [by intros [= <-]|]).
    by apply elem_of_nil in Hr.
  - cbn. by left.
  - reflexivity.
  - cbn. not_in_names.
Defined.

(* ================================================================== *)
(** ** The players handed to the presentation code *)
(* ================================================================== *)

Section Players.

Implicit Types (t : DataFrame) (r : Row) (σ : state) (l : loc).

Lemma team_selected_same t t' (sel : cell) r r' :
  same_player t t' r r' → team_selected t sel r = team_selected t' sel r'.
Proof.
  intros [_ Hteam]. destruct sel as [| |team|]; try done.
  unfold team_selected, on_team. by rewrite Hteam.
Qed.

Lemma same_player_labels t t' (rs rs' : list Row) :
  Forall2 (same_player t t') rs rs' → label <$> rs = label <$> rs'.
Proof. induction 1 as [|r r' rs rs' [Hl _] _ IH]; [done|]. cbn. by rewrite Hl, IH. Qed.

Lemma same_player_teams t t' (rs rs' : list Row) (x : string) :
  Forall2 (same_player t t') rs rs' →
  (∃ r', r' ∈ rs' ∧ row_get t' "Team" r' = Some (VStr x))
  ↔ (∃ r, r ∈ rs ∧ row_get t "Team" r = Some (VStr x)).
Proof.
  intros HF. split.
  - intros (r' & [i Hi]%list_elem_of_lookup_1 & Hx).
    destruct (Forall2_lookup_r _ _ _ _ _ HF Hi) as (r & Hr & [_ Ht]).
    exists r. split; [by eapply list_elem_of_lookup_2|]. by rewrite <- Ht.
  - intros (r & [i Hi]%list_elem_of_lookup_1 & Hx).
    destruct (Forall2_lookup_l _ _ _ _ _ HF Hi) as (r' & Hr' & [_ Ht]).
    exists r'. split; [by eapply list_elem_of_lookup_2|]. by rewrite Ht.
Qed.

(** The derived table of a season table with rows: the same players. *)
Lemma clean_same_players t :
  wf t → empty t = false →
  "OBP" ∈ columns t → "SLG" ∈ columns t → "Team" ∈ columns t →
  column_all number t "OBP" → column_all number t "SLG" →
  ∃ t', clean t = Ok t' ∧ empty t' = false ∧
        Forall2 (same_player t t') (rows t) (rows t').
Proof.
  intros Hwf He Ho Hs Hteam Hno Hns.
  destruct (with_OPS_numbers t Ho Hs Hno Hns) as (obp & slg & ops & Hobp & Hslg & Hops).
  destruct (clean_rows t obp slg ops Hwf He Hobp Hslg Hops) as (t' & Hc & HF).
  exists t'. split; [done|]. split; [by apply (clean_nonempty t)|].
  eapply Forall2_impl; [exact HF|]. intros r r' [[Hl Hsame] _]. split; [done|].
  apply Hsame. apply list_elem_of_filter. split; [|unfold cols; in_names].
  split; [done|discriminate].
Qed.

End Players.

(** X11: lines 48-62 with lines 107-108, for a season table (one cell per
    column in every row; distinct column names, PA, OBP, SLG and Team
    among them; numbers in OBP and SLG, numbers or missing values in PA,
    text or [None] in Team): these lines do not raise, and the table they
    hand to the presentation code of lines 64-105 holds exactly the
    fetched players who reach [min_pa] and pass the team selector, in
    fetched order; the options of the selector are "All" and then the
    teams of the players who reach [min_pa], in ascending order.  (What
    the presentation code does with that table is outside.) *)
Theorem main_hands_over_selected_players
    (batting_stats : Z → Z → result DataFrame) (t : DataFrame)
    (selected_year min_pa : Z) (choice : nat) (σ : state) :
  batting_stats selected_year 10 = Ok t →
  season_table t →
  ∃ (names : list string) (l' : loc) (σ' : state) (t' : DataFrame),
    StronglySorted string_lt names ∧
    (∀ x, x ∈ names ↔ ∃ r, r ∈ rows t ∧ PA_at_least t min_pa r = true
                           ∧ row_get t "Team" r = Some (VStr x)) ∧
    main batting_stats selected_year min_pa choice σ = (Ok l', σ') ∧
    heap σ' !! l' = Some t' ∧
    label <$> rows t'
    = label <$> filter (λ r, PA_at_least t min_pa r = true ∧
                             team_selected t
                               (selectbox (VStr "All" :: (VStr <$> names)) choice) r = true)
                  (rows t).
Proof.
  intros Hb (Hwf & _ & Hcols & Hnum & Hno & Hns & Htext).
  assert ("PA" ∈ columns t) as Hpa by (apply Hcols; in_names).
  assert ("OBP" ∈ columns t) as Hobp by (apply Hcols; in_names).
  assert ("SLG" ∈ columns t) as Hslg by (apply Hcols; in_names).
  assert ("Team" ∈ columns t) as Hteam by (apply Hcols; in_names).
  unfold main. rewrite bind_run, (fetch_data_ok _ _ _ _ Hb), bind_run.
  set (σ0 := alloc σ t). set (l0 := next σ).
  assert (heap σ0 !! l0 = Some t) as Hl0 by apply alloc_lookup.
  rewrite (derive_stage_run _ _ _ _ Hl0).
  set (t1 := {| columns := columns t;
                rows := filter (λ r, PA_at_least t min_pa r = true) (rows t) |}).
  assert (pa_filter t min_pa = Ok t1) as Hpf by by apply pa_filter_column_all.
  (* no player reaches the bound, or there is no player at all *)
  assert (rows t1 = [] →
          ∃ (names : list string),
            names = [] ∧
            (∀ x, x ∈ names ↔ ∃ r, r ∈ rows t ∧ PA_at_least t min_pa r = true
                                   ∧ row_get t "Team" r = Some (VStr x)) ∧
            [] = label <$> filter (λ r, PA_at_least t min_pa r = true ∧
                                        team_selected t
                                          (selectbox (VStr "All" :: (VStr <$> names)) choice)
                                          r = true) (rows t)) as Hnone.
  { intros Hnil. exists []. split; [done|]. split.
    - intros x. split; [by intros ?%elem_of_nil|]. intros (r & Hr & Hk & _).
      assert (r ∈ rows t1) as Hr1 by by apply list_elem_of_filter.
      rewrite Hnil in Hr1. by apply elem_of_nil in Hr1.
    - rewrite filter_none; [done|]. intros r Hr [Hk _].
      assert (r ∈ rows t1) as Hr1 by by apply list_elem_of_filter.
      rewrite Hnil in Hr1. by apply elem_of_nil in Hr1. }
  destruct (empty t) eqn:He.
  { assert (rows t = []) as Hrows.
    { unfold empty in He. destruct (columns t); [by apply elem_of_nil in Hpa|].
      by destruct (rows t). }
    destruct Hnone as (names & -> & Hin & Hlab); [cbn; by rewrite Hrows|].
    rewrite (team_stage_run _ _ _ _ _ Hl0), He.
    exists [], l0, (say σ0 (st_warning "No data available for the selected season.")), t.
    split; [constructor|]. split; [exact Hin|]. split; [done|]. split; [done|].
    by rewrite Hrows. }
  rewrite Hpf.
  assert (heap (alloc σ0 t1) !! next σ0 = Some t1) as Hl1 by apply alloc_lookup.
  destruct (empty t1) eqn:He1.
  { assert (rows t1 = []) as Hrows.
    { unfold empty in He1. cbn [t1 columns] in He1.
      destruct (columns t); [by apply elem_of_nil in Hpa|]. by destruct (rows t1). }
    destruct (Hnone Hrows) as (names & -> & Hin & Hlab).
    rewrite (clean_data_run _ _ _ Hl1), He1.
    rewrite (team_stage_run _ _ _ _ _ Hl1), He1.
    eexists [], _, _, t1. split; [constructor|]. split; [exact Hin|].
    split; [done|]. split; [done|]. by rewrite Hrows. }
  (* some player reaches the bound *)
  clear Hnone.
  destruct (clean_same_players t1) as (t3 & Hclean & He3 & HF); try done.
  { by eapply pa_filter_wf. }
  { by apply column_all_filter. }
  { by apply column_all_filter. }
  pose proof (clean_data_yields _ _ _ Hl1) as Hy. rewrite Hclean in Hy.
  destruct (clean_data (next σ0) (alloc σ0 t1)) as [[l3|e] σ3]; cbn in Hy; [|done].
  destruct Hy as (t3' & Hl3 & [= <-]).
  assert ("Team" ∈ columns t3) as Hteam3.
  { apply empty_false_iff in He1 as [_ Hne1].
    destruct (rows t1) as [|r1 rs1] eqn:Er1; [done|].
    apply Forall2_cons_inv_l in HF as (r3 & rs3 & [_ Hget] & _ & _).
    apply column_index_is_Some. unfold row_get in Hget.
    destruct (column_index_Some _ _ Hteam) as (i & Hi & _). cbn [t1 columns] in Hget.
    rewrite Hi in Hget. cbn in Hget.
    destruct (column_index "Team" (columns t3)); [by eexists|done]. }
  assert (column_all text_or_missing t3 "Team") as Htext3.
  { intros r3 v [i Hi]%list_elem_of_lookup_1 Hv.
    destruct (Forall2_lookup_r _ _ _ _ _ HF Hi) as (r1 & Hr1 & [_ Hget]).
    rewrite Hget in Hv. apply (Htext r1 v); [|done].
    apply list_elem_of_lookup_2 in Hr1. by apply list_elem_of_filter in Hr1 as [_ ?]. }
  destruct (team_stage_text σ3 l3 t3 selected_year choice Hl3 He3 Hteam3 Htext3)
    as (names & l' & σ' & t' & _ & Hs & Hin & Hrun & Hl' & _ & Hrows & _ & _).
  exists names, l', σ', t'. split; [done|]. split; [|split; [done|split; [done|]]].
  - intros x. rewrite Hin, (same_player_teams t1 t3 _ _ x HF). cbn [t1 rows].
    split.
    + intros (r & [Hk Hr]%list_elem_of_filter & Hx). by exists r.
    + intros (r & Hr & Hk & Hx). exists r. split; [by apply list_elem_of_filter|done].
  - rewrite Hrows.
    set (sel := selectbox (VStr "All" :: (VStr <$> names)) choice).
    rewrite <- (same_player_labels t1 t3
                  (filter (λ r, team_selected t1 sel r = true) (rows t1))
                  (filter (λ r, team_selected t3 sel r = true) (rows t3))).
    2:{ apply Forall2_filter; [|done]. intros r r' Hsame.
        by rewrite (team_selected_same _ _ sel _ _ Hsame). }
    cbn [t1 rows]. rewrite list_filter_filter. f_equal.
    apply list_filter_iff. intros r. tauto.
Qed.

(** The sample season is a season table. *)
Lemma main_hands_over_sample :
  ∃ (names : list string) (l' : loc) (σ' : state) (t' : DataFrame),
    StronglySorted string_lt names ∧
    (∀ x, x ∈ names ↔ ∃ r, r ∈ rows Sample.season ∧ PA_at_least Sample.season 40 r = true
                           ∧ row_get Sample.season "Team" r = Some (VStr x)) ∧
    main Sample.provider 2024 40 1 init = (Ok l', σ') ∧
    heap σ' !! l' = Some t' ∧
    label <$> rows t'
    = label <$> filter (λ r, PA_at_least Sample.season 40 r = true ∧
                             team_selected Sample.season
                               (selectbox (VStr "All" :: (VStr <$> names)) 1) r = true)
                  (rows Sample.season).
Proof.
  apply (main_hands_over_selected_players Sample.provider Sample.season 2024 40 1 init).
  - reflexivity.
  - split; [by repeat constructor|]. split; [apply season_distinct|]. split.
    { intros c Hc. cbn.
      repeat (apply elem_of_cons in Hc as [->|Hc]; [in_names|]).
      by apply elem_of_nil in Hc. }
    repeat split; intros r c Hr; cbn in Hr;
      repeat (apply elem_of_cons in Hr as [->|Hr]; [by intros [= <-]|]);
      by apply elem_of_nil in Hr.
Defined.

(** X12: on a table with rows and columns that lacks the OBP column or the
    SLG column, [clean_data] raises [KeyError] at line 21, for OBP when
    OBP is missing and for SLG otherwise, and leaves every table as it
    was: the check of line 24 comes too late for these two columns. *)
Theorem clean_data_without_OBP_or_SLG_raises (σ : state) (l : loc) (t : DataFrame) :
  heap σ !! l = Some t →
  empty t = false →
  "OBP" ∉ columns t ∨ "SLG" ∉ columns t →
  clean_data l σ
  = (Raise (KeyError (if bool_decide ("OBP" ∈ columns t) then "SLG" else "OBP")), σ).
Proof.
  intros Hl He Hmiss. rewrite (clean_data_run _ _ _ Hl), He. unfold with_OPS.
  case_bool_decide as Ho.
  - destruct Hmiss as [?|Hs]; [done|].
    rewrite (getitem_present _ _ Ho). cbn [mbind result_bind].
    by rewrite (getitem_missing _ _ Hs).
  - by rewrite (getitem_missing _ _ Ho).
Qed.

(** The old season has no OBP column. *)
Lemma clean_data_without_OBP_sample :
  clean_data 0%nat (Sample.only Sample.old_season)
  = (Raise (KeyError (if bool_decide ("OBP" ∈ columns Sample.old_season)
                      then "SLG" else "OBP")),
     Sample.only Sample.old_season).
Proof.
  apply (clean_data_without_OBP_or_SLG_raises (Sample.only Sample.old_season) 0%nat
           Sample.old_season).
  - reflexivity.
  - reflexivity.
  - left. cbn. not_in_names.
Defined.

(** X13: [clean_data] cannot be applied to its own result: whenever it
    returns for a table with rows and columns, a second call on the table
    it returned raises [KeyError] for OBP and changes nothing. *)
Theorem clean_data_on_its_result_raises (σ σ1 : state) (l l1 : loc) (t : DataFrame) :
  heap σ !! l = Some t →
  empty t = false →
  clean_data l σ = (Ok l1, σ1) →
  clean_data l1 σ1 = (Raise (KeyError "OBP"), σ1).
Proof.
  intros Hl He Hrun.
  pose proof (clean_data_yields _ _ _ Hl) as Hy. rewrite Hrun in Hy.
  destruct Hy as (t1 & Hl1 & Hc).
  destruct (clean_nonempty _ _ He Hc) as [He1 Hcols].
  assert ("OBP" ∉ columns t1) as Ho.
  { intros [Hin _]%Hcols. contradict Hin. unfold cols. not_in_names. }
  rewrite (clean_data_run _ _ _ Hl1), He1. unfold with_OPS.
  by rewrite (getitem_missing _ _ Ho).
Qed.

(** The sample season, derived once. *)
Lemma clean_data_on_its_result_sample :
  clean_data 1%nat (snd (clean_data 0%nat (Sample.only Sample.season)))
  = (Raise (KeyError "OBP"), snd (clean_data 0%nat (Sample.only Sample.season))).
Proof.
  apply (clean_data_on_its_result_raises (Sample.only Sample.season) _ 0%nat _ Sample.season).
  - reflexivity.
  - reflexivity.
  - vm_compute. reflexivity.
Defined.

(** X14: the options of the team selector depend only on which teams occur
    in the table: two tables whose Team columns hold text (or missing
    values) and name the same teams get the same options, whatever the
    order of their rows and however many players a team has. *)
Theorem team_options_depend_on_teams_only (σ : state) (l1 l2 : loc) (t1 t2 : DataFrame) :
  heap σ !! l1 = Some t1 →
  heap σ !! l2 = Some t2 →
  "Team" ∈ columns t1 →
  "Team" ∈ columns t2 →
  column_all text_or_missing t1 "Team" →
  column_all text_or_missing t2 "Team" →
  (∀ x, (∃ r, r ∈ rows t1 ∧ row_get t1 "Team" r = Some (VStr x))
        ↔ (∃ r, r ∈ rows t2 ∧ row_get t2 "Team" r = Some (VStr x))) →
  team_options l1 σ = team_options l2 σ.
Proof.
  intros Hl1 Hl2 Hc1 Hc2 Ht1 Ht2 Hsame.
  rewrite (team_options_run _ _ _ Hl1), (team_options_run _ _ _ Hl2).
  destruct (options_text t1 Hc1) as (n1 & -> & Hs1 & Hd1 & Hin1);
    [intros r c; apply Ht1|].
  destruct (options_text t2 Hc2) as (n2 & -> & Hs2 & Hd2 & Hin2);
    [intros r c; apply Ht2|].
  do 4 f_equal.
  apply (StronglySorted_unique_strong string_lt); [|done|done|].
  - intros x1 x2 _ _ H12 H21. destruct (string_lt_irrefl x1).
    by eapply string_lt_trans.
  - apply NoDup_Permutation; [done|done|]. intros x. by rewrite Hin1, Hin2, Hsame.
Qed.

(** The sample season and the same season with its two rows swapped. *)
Lemma team_options_depend_on_teams_only_sample :
  team_options 0%nat
    (alloc (Sample.only Sample.season)
       {| columns := columns Sample.season; rows := reverse (rows Sample.season) |})
  = team_options 1%nat
      (alloc (Sample.only Sample.season)
         {| columns := columns Sample.season; rows := reverse (rows Sample.season) |}).
Proof.
  apply (team_options_depend_on_teams_only _ 0%nat 1%nat Sample.season
           {| columns := columns Sample.season; rows := reverse (rows Sample.season) |}).
  - reflexivity.
  - reflexivity.
  - cbn. in_names.
  - cbn. in_names.
  - intros r c Hr. cbn in Hr.
    repeat (apply elem_of_cons in Hr as [->|Hr]; [by intros [= <-]|]).
    by apply elem_of_nil in Hr.
  - intros r c Hr. cbn in Hr.
    repeat (apply elem_of_cons in Hr as [->|Hr]; [by intros [= <-]|]).
    by apply elem_of_nil in Hr.
  - intros x. split; intros (r & Hr & Hx); exists r; (split; [|exact Hx]);
      cbn in Hr |- *; rewrite !elem_of_cons in Hr |- *; tauto.
Defined.
